(** * Downloads folder cleanup agent: a shallow embedding of
      [download_cleanup_agent.py] and the properties of its pipeline.

    Conventions of the embedding.
    - A Python [str] is a [string] holding its UTF-8 bytes.
    - A value decoded by [json.loads]/[json.load] is a [json]; a decoded
      object keeps its items as an association list in insertion order.
    - A raised exception is a [Raise] result; stateful code is a function
      from a [state] to a result and a new state.
    - A Python [float] is carried as a rational: the value itself where
      the float is exact (a size in bytes over 1024 * 1024 and sums of
      such), the decimal it prints as where it results from [round(x, 2)];
      text that is produced by formatting one is kept symbolic (see
      [piece]). *)

From Stdlib Require Import ZArith QArith Qround List String Ascii Lia Sorted Permutation.
From stdpp Require Import base option list gmap sets strings.

Set Warnings "-register-all".
Local Open Scope Z_scope.

(** ** Python values *)

Inductive json : Type :=
| JNull
| JBool (b : bool)
| JNum (q : Q)
| JStr (s : string)
| JArr (items : list json)
| JObj (items : list (string * json)).

Inductive exn : Type :=
| KeyError (key : string)
| AttributeError
| TypeError
| ValueError
| JSONDecodeError (msg : string)
| OSError (msg : string)
| APIError (msg : string)
| FileNotFoundError.

Inductive result (A : Type) : Type :=
| Ok (a : A)
| Raise (e : exn).
Arguments Ok {A} a.
Arguments Raise {A} e.

Module Py.

(** [d[k]] on the items of a dict, as an option. *)
Fixpoint lookup (d : list (string * json)) (k : string) : option json :=
  match d with
  | [] => None
  | (k', v) :: d' => if String.eqb k' k then Some v else lookup d' k
  end.

(** [v.get(k, dflt)]: only a dict has the method. *)
Definition get (v : json) (k : string) (dflt : json) : result json :=
  match v with
  | JObj d => Ok (default dflt (lookup d k))
  | _ => Raise AttributeError
  end.

(** [v[k]] with a string key. *)
Definition getitem (v : json) (k : string) : result json :=
  match v with
  | JObj d => match lookup d k with
              | Some x => Ok x
              | None => Raise (KeyError k)
              end
  | _ => Raise TypeError
  end.

(** [k in v] with a string [k]: a key of a dict, an item of a list, a
    part of a string. *)
Definition contains (v : json) (k : string) : result bool :=
  match v with
  | JObj d => Ok (bool_decide (is_Some (lookup d k)))
  | JArr l => Ok (existsb (λ x, match x with
                                | JStr s => String.eqb s k
                                | _ => false
                                end) l)
  | JStr s => Ok (match String.index 0 k s with Some _ => true | None => false end)
  | _ => Raise TypeError
  end.

(** Truth value of a decoded value. *)
Definition truthy (v : json) : bool :=
  match v with
  | JNull => false
  | JBool b => b
  | JNum q => negb (Qeq_bool q 0)
  | JStr s => negb (String.eqb s EmptyString)
  | JArr l => match l with [] => false | _ => true end
  | JObj d => match d with [] => false | _ => true end
  end.

(** A [str] is a sequence of code points; in UTF-8 each starts at a byte
    that is not a continuation byte. *)
Definition is_continuation (c : ascii) : bool :=
  let n := nat_of_ascii c in ((128 <=? n)%nat && (n <? 192)%nat)%bool.

(** [len(s)] *)
Fixpoint str_len (s : string) : nat :=
  match s with
  | EmptyString => 0
  | String c s' => if is_continuation c then str_len s' else S (str_len s')
  end.

(** [s[:n]] *)
Fixpoint str_take (n : nat) (s : string) : string :=
  match s with
  | EmptyString => EmptyString
  | String c s' =>
      if is_continuation c then String c (str_take n s')
      else match n with
           | O => EmptyString
           | S n' => String c (str_take n' s')
           end
  end.

(** The characters of a [str], one string each. *)
Fixpoint str_chars (s : string) : list string :=
  match s with
  | EmptyString => []
  | String c s' =>
      match s' with
      | String c' _ =>
          if is_continuation c'
          then match str_chars s' with
               | h :: t => String c h :: t
               | [] => [String c EmptyString]
               end
          else String c EmptyString :: str_chars s'
      | EmptyString => [String c EmptyString]
      end
  end.

(** [len(v)]. *)
Definition len (v : json) : result nat :=
  match v with
  | JStr s => Ok (str_len s)
  | JArr l => Ok (List.length l)
  | JObj d => Ok (List.length d)
  | _ => Raise TypeError
  end.

(** The elements that [for x in v] visits: the items of a list, the keys
    of a dict, the characters of a string. *)
Definition iter (v : json) : result (list json) :=
  match v with
  | JArr l => Ok l
  | JObj d => Ok (map (λ kv, JStr (fst kv)) d)
  | JStr s => Ok (map JStr (str_chars s))
  | _ => Raise TypeError
  end.

Definition lower_ascii (c : ascii) : ascii :=
  let n := nat_of_ascii c in
  if ((65 <=? n)%nat && (n <=? 90)%nat)%bool then ascii_of_nat (n + 32) else c.

Fixpoint lower_string (s : string) : string :=
  match s with
  | EmptyString => EmptyString
  | String c s' => String (lower_ascii c) (lower_string s')
  end.

(** [v.lower()]: only a [str] has the method.  Lower-casing acts on the
    letters A to Z; no other character lower-cases to a letter that
    occurs in "high", "medium" or "low", the only strings the result is
    compared with. *)
Definition lower (v : json) : result string :=
  match v with
  | JStr s => Ok (lower_string s)
  | _ => Raise AttributeError
  end.

End Py.

(** ** Formatted text

    Text built by an f-string is a sequence of pieces: literal characters,
    and values whose rendering is left to Python ([str] of a float, the
    [.2f] format, [str] of an integer, [str] of a decoded value that is
    not a string). *)

Inductive piece : Type :=
| Lit (s : string)
| FloatStr (q : Q)
| Fixed2 (q : Q)
| IntStr (n : Z)
| ValueStr (v : json).

Definition text : Type := list piece.

(** [f"{v}"] for a decoded value. *)
Definition fmt_value (v : json) : piece :=
  match v with
  | JStr s => Lit s
  | _ => ValueStr v
  end.

(** [f"{v:.2f}"]: defined for numbers (a bool is one), an error for the
    rest. *)
Definition fmt_2f (v : json) : result piece :=
  match v with
  | JNum q => Ok (Fixed2 q)
  | JBool b => Ok (Fixed2 (if b then 1 else 0)%Q)
  | JStr _ => Raise ValueError
  | _ => Raise TypeError
  end.

(** ["\n".join(lines)] *)
Fixpoint join_lines (lines : list text) : text :=
  match lines with
  | [] => []
  | [l] => l
  | l :: ls => l ++ Lit (String "010" EmptyString) :: join_lines ls
  end.

(** ** Entry records (the dicts built by [scan_downloads_folder]) *)

Record file_info : Type := {
  name : string;
  path : string;
  size_bytes : Z;
  size_mb : Q;
  extension : string;
  modified_date : string;
  is_file : bool;
  is_dir : bool;
}.

(** ** [filter_kept_files] *)

Fixpoint filter_kept_files (files : list file_info) (kept_filenames : gset string)
  : list file_info :=
  match files with
  | [] => []
  | f :: rest =>
      if decide (name f ∉ kept_filenames)
      then f :: filter_kept_files rest kept_filenames
      else filter_kept_files rest kept_filenames
  end.

(** ** [format_files_for_prompt] *)

(** The sort key [(-x["size_bytes"], x["modified_date"])] and the order of
    Python tuples on it. *)
Definition sort_key (x : file_info) : Z * string :=
  (- size_bytes x, modified_date x).

Definition key_lt (a b : Z * string) : bool :=
  (fst a <? fst b) || ((fst a =? fst b) && String.ltb (snd a) (snd b)).

(** [sorted] is stable: an element stays in front of the later elements
    that are not strictly smaller. *)
Fixpoint sorted_insert (x : file_info) (l : list file_info) : list file_info :=
  match l with
  | [] => [x]
  | y :: l' =>
      if key_lt (sort_key y) (sort_key x)
      then y :: sorted_insert x l'
      else x :: y :: l'
  end.

Fixpoint sorted_files (files : list file_info) : list file_info :=
  match files with
  | [] => []
  | x :: rest => sorted_insert x (sorted_files rest)
  end.

Definition format_line (f : file_info) : text :=
  let item_type := if is_dir f then "📁 Folder"%string else "📄 File"%string in
  [ Lit item_type; Lit ": "; Lit (name f); Lit " | ";
    Lit "Size: "; FloatStr (size_mb f); Lit " MB | ";
    Lit "Modified: "; Lit (String.substring 0 10 (modified_date f)); Lit " | ";
    Lit "Extension: ";
    Lit (if String.eqb (extension f) EmptyString then "none"%string else extension f) ].

Definition formatted_lines (files : list file_info) : list text :=
  map format_line (sorted_files files).

Definition format_files_for_prompt (files : list file_info) : text :=
  join_lines (formatted_lines files).

(** ** Paths and the file system

    A path is the list of its components below the root.  The file system
    maps the canonical path of each entry to what is there. *)

Record stat_result : Type := {
  st_size : Z;
  (** [datetime.fromtimestamp(st_mtime).isoformat()] *)
  st_mtime_iso : string;
}.

(** An entry is a regular file, a directory, or a symbolic link whose
    target is missing.  [unlink_error] is the message of the [OSError]
    that [unlink] raises on the entry; a file without one can be removed,
    and removing a directory with [unlink] always fails. *)
Inductive node : Type :=
| File (st : stat_result) (unlink_error : option string)
| Folder (st : stat_result) (unlink_error : string)
| BrokenLink.

Abbreviation filesystem := (gmap (list string) node).

(** The pieces of a string between slashes. *)
Fixpoint split_slash (s : string) : list string :=
  match s with
  | EmptyString => [EmptyString]
  | String c s' =>
      if Ascii.eqb c "/" then EmptyString :: split_slash s'
      else match split_slash s' with
           | [] => [String c EmptyString]
           | h :: t => String c h :: t
           end
  end.

(** The components [pathlib] keeps: empty ones and ["."] are dropped,
    [".."] is kept. *)
Definition path_parts (s : string) : list string :=
  filter (λ c, c ≠ EmptyString ∧ c ≠ "."%string) (split_slash s).

Definition is_absolute (s : string) : bool :=
  match s with
  | String c _ => Ascii.eqb c "/"
  | EmptyString => false
  end.

(** [p / s]: an absolute [s] replaces [p]. *)
Definition joinpath (p : list string) (s : string) : list string :=
  if is_absolute s then path_parts s else p ++ path_parts s.

(** [str(p)] *)
Definition path_str (p : list string) : string :=
  match p with
  | [] => "/"%string
  | _ => String.concat EmptyString (map (λ c, String.append "/" c) p)
  end.

Definition is_directory (fs : filesystem) (p : list string) : bool :=
  match p with
  | [] => true
  | _ => match fs !! p with
         | Some (Folder _ _) => true
         | _ => false
         end
  end.

(** Name resolution: from the directory [cur], follow the components;
    [".."] is the parent, and a component can only be looked up in a
    directory.  The result is the canonical path that is named. *)
Fixpoint walk (fs : filesystem) (cur : list string) (comps : list string)
  : option (list string) :=
  match comps with
  | [] => Some cur
  | c :: rest =>
      if is_directory fs cur
      then walk fs (if String.eqb c ".." then removelast cur else cur ++ [c]) rest
      else None
  end.

Definition resolve (fs : filesystem) (p : list string) : option (list string) :=
  walk fs [] p.

(** [p.stat()] *)
Definition stat (fs : filesystem) (p : list string) : result stat_result :=
  match resolve fs p with
  | Some [] => Ok {| st_size := 0; st_mtime_iso := EmptyString |}
  | Some q => match fs !! q with
              | Some (File st _) | Some (Folder st _) => Ok st
              | Some BrokenLink | None => Raise FileNotFoundError
              end
  | None => Raise FileNotFoundError
  end.

(** [p.exists()] *)
Definition path_exists (fs : filesystem) (p : list string) : bool :=
  match stat fs p with
  | Ok _ => true
  | Raise _ => false
  end.

(** [p.unlink()] *)
Definition unlink (fs : filesystem) (p : list string) : result filesystem :=
  match resolve fs p with
  | Some q => match fs !! q with
              | Some (File _ None) | Some BrokenLink => Ok (delete q fs)
              | Some (File _ (Some msg)) | Some (Folder _ msg) => Raise (OSError msg)
              | None => Raise FileNotFoundError
              end
  | None => Raise FileNotFoundError
  end.

(** [str(e)] *)
Definition exn_str (e : exn) : string :=
  match e with
  | OSError msg | APIError msg | JSONDecodeError msg => msg
  | KeyError k => String.append "'" (String.append k "'")
  | FileNotFoundError => "[Errno 2] No such file or directory"%string
  | _ => EmptyString
  end.

(** ** [delete_selected_files] *)

Record deletion_result : Type := {
  deleted : list string;
  failed : list string;
  total_freed_mb : Q;
  count : nat;
}.

(** The variables of the loop and the file system it acts on. *)
Record deletion_vars : Type := {
  v_deleted : list string;
  v_failed : list string;
  v_total_freed_mb : Q;
  v_fs : filesystem;
}.

Definition not_found_entry (filename : string) : string :=
  String.append filename " (not found)".

Definition error_entry (filename : string) (e : exn) : string :=
  String.append filename (String.append " (error: " (String.append (exn_str e) ")")).

(** One turn of the loop. *)
Definition delete_one (downloads_path : list string) (vars : deletion_vars)
    (filename : string) : deletion_vars :=
  let file_path := joinpath downloads_path filename in
  if path_exists (v_fs vars) file_path then
    match stat (v_fs vars) file_path with
    | Ok st =>
        let size_mb := (inject_Z (st_size st) / (1024 * 1024))%Q in
        match unlink (v_fs vars) file_path with
        | Ok fs' =>
            {| v_deleted := v_deleted vars ++ [filename];
               v_failed := v_failed vars;
               v_total_freed_mb := (v_total_freed_mb vars + size_mb)%Q;
               v_fs := fs' |}
        | Raise e =>
            {| v_deleted := v_deleted vars;
               v_failed := v_failed vars ++ [error_entry filename e];
               v_total_freed_mb := v_total_freed_mb vars;
               v_fs := v_fs vars |}
        end
    | Raise e =>
        {| v_deleted := v_deleted vars;
           v_failed := v_failed vars ++ [error_entry filename e];
           v_total_freed_mb := v_total_freed_mb vars;
           v_fs := v_fs vars |}
    end
  else
    {| v_deleted := v_deleted vars;
       v_failed := v_failed vars ++ [not_found_entry filename];
       v_total_freed_mb := v_total_freed_mb vars;
       v_fs := v_fs vars |}.

Definition delete_loop (downloads_path : list string)
    (selected_filenames : list string) (vars : deletion_vars) : deletion_vars :=
  fold_left (delete_one downloads_path) selected_filenames vars.

Definition delete_selected_files (selected_filenames : list string)
    (downloads_path : list string) (fs : filesystem)
  : deletion_result * filesystem :=
  let vars :=
    delete_loop downloads_path selected_filenames
      {| v_deleted := []; v_failed := []; v_total_freed_mb := 0; v_fs := fs |} in
  ({| deleted := v_deleted vars;
      failed := v_failed vars;
      total_freed_mb := v_total_freed_mb vars;
      count := length (v_deleted vars) |},
   v_fs vars).

(** ** The state of a session and its effects *)

(** The suppression store [KEPT_FILES_DB], a file next to the script.  It
    is a component of the state apart from [fs]: the model takes it to lie
    outside the paths that a session resolves, so it does not describe a
    session that deletes or overwrites the store file itself.  The file is
    absent, present with text that [json.load] rejects (with the message
    of its error), or present with text that decodes to [data]. *)
Inductive db_content : Type :=
| Missing
| Unparseable (msg : string)
| Content (data : json).

(** How writing the store fails, when it does: [open] raises and the file
    stays as it is, or the file is opened, which empties it, and
    [json.dump] raises, which leaves in the file what had been written of
    the text by then. *)
Inductive write_failure : Type :=
| Open_fails (msg : string)
| Dump_fails (msg : string) (remains : db_content).

(** [read_error] holds the message of the [IOError] that opening the file
    for reading raises, when it does. *)
Record db_file : Type := {
  content : db_content;
  read_error : option string;
  write_error : option write_failure;
}.

(** A choice of a checkbox prompt: [questionary.Choice(title, value)]. *)
Record choice : Type := {
  title : text;
  value : json;
}.

(** What a session does that can be observed from outside. *)
Inductive event : Type :=
| Printed (line : text)
| Sent_request (user_prompt : text)
| Asked_checkbox (message : string) (choices : list choice)
| Asked_confirm (message : text).

Record state : Type := {
  fs : filesystem;
  kept_db : db_file;
  trace : list event;
  (** number of readings of the clock so far *)
  ticks : nat;
}.

(** What [json.loads] makes of a text: a value, or a [JSONDecodeError]. *)
Inductive decoding : Type :=
| Decoded (v : json)
| Undecodable (msg : string).

(** What the oracle call does: it raises, or it returns a message whose
    content is [raw], with [decoded] what [json.loads] makes of [raw]. *)
Inductive api_reply : Type :=
| Api_raises (msg : string)
| Api_returns (raw : string) (decoded : decoding).

(** What a session receives from outside. *)
Record world : Type := {
  (** [Path.home()] *)
  home : list string;
  reply : api_reply;
  (** the operator at the prompts; [None] is a cancelled prompt *)
  answer_delete : list choice → option (list json);
  answer_confirm : option bool;
  answer_keep : list choice → option (list json);
  (** [datetime.now().isoformat()] at the n-th reading of the clock *)
  now : nat → string;
  (** size of the text that [json.dump] writes for the suggestions *)
  dump_size : json → Z;
}.

Definition M (A : Type) : Type := state → result A * state.

Definition ret {A : Type} (a : A) : M A := λ s, (Ok a, s).

Definition raise {A : Type} (e : exn) : M A := λ s, (Raise e, s).

Definition bind {A B : Type} (m : M A) (k : A → M B) : M B :=
  λ s, match m s with
       | (Ok a, s') => k a s'
       | (Raise e, s') => (Raise e, s')
       end.

Declare Scope session_scope.
Delimit Scope session_scope with session.
Notation "x <- m ;; k" := (bind m (λ x, k))
  (at level 100, m at next level, right associativity) : session_scope.
Notation "m ;;; k" := (bind m (λ _, k))
  (at level 100, right associativity) : session_scope.
Local Open Scope session_scope.

(** A value or an exception of a pure operation, in a session. *)
Definition lift {A : Type} (r : result A) : M A := λ s, (r, s).

(** [try: m except <caught>: handler] *)
Definition try_except {A : Type} (m : M A) (caught : exn → bool)
    (handler : exn → M A) : M A :=
  λ s, match m s with
       | (Raise e, s') => if caught e then handler e s' else (Raise e, s')
       | r => r
       end.

Definition emit (ev : event) : M unit :=
  λ s, (Ok tt, {| fs := fs s; kept_db := kept_db s;
                  trace := trace s ++ [ev]; ticks := ticks s |}).

Definition print (line : text) : M unit := emit (Printed line).

Definition get_fs : M filesystem := λ s, (Ok (fs s), s).

Definition put_fs (fs' : filesystem) : M unit :=
  λ s, (Ok tt, {| fs := fs'; kept_db := kept_db s;
                  trace := trace s; ticks := ticks s |}).

Definition get_db : M db_file := λ s, (Ok (kept_db s), s).

Definition put_db (db : db_file) : M unit :=
  λ s, (Ok tt, {| fs := fs s; kept_db := db;
                  trace := trace s; ticks := ticks s |}).

(** [datetime.now().isoformat()] *)
Definition datetime_now (w : world) : M string :=
  λ s, (Ok (now w (ticks s)),
        {| fs := fs s; kept_db := kept_db s;
           trace := trace s; ticks := S (ticks s) |}).

(** [for x in l: body(x)] *)
Fixpoint for_each {A : Type} (l : list A) (body : A → M unit) : M unit :=
  match l with
  | [] => ret tt
  | x :: rest => body x ;;; for_each rest body
  end.

(** A comprehension [[f(x) for x in l]] whose element expression can raise. *)
Fixpoint map_result {A B : Type} (f : A → result B) (l : list A) : result (list B) :=
  match l with
  | [] => Ok []
  | x :: rest =>
      match f x with
      | Raise e => Raise e
      | Ok y => match map_result f rest with
                | Raise e => Raise e
                | Ok ys => Ok (y :: ys)
                end
      end
  end.

(** A comprehension [[x for x in l if p(x)]] whose condition can raise. *)
Fixpoint filter_result {A : Type} (p : A → result bool) (l : list A) : result (list A) :=
  match l with
  | [] => Ok []
  | x :: rest =>
      match p x with
      | Raise e => Raise e
      | Ok b => match filter_result p rest with
                | Raise e => Raise e
                | Ok xs => Ok (if b then x :: xs else xs)
                end
      end
  end.

Definition is_io_error (e : exn) : bool :=
  match e with
  | OSError _ | FileNotFoundError => true
  | _ => false
  end.

Definition is_decode_error (e : exn) : bool :=
  match e with
  | JSONDecodeError _ => true
  | _ => false
  end.

Definition is_key_error (e : exn) : bool :=
  match e with
  | KeyError _ => true
  | _ => false
  end.

(** ** Sets of decoded values *)

(** Only [None], booleans, numbers and strings can be members of a set. *)
Definition hashable (v : json) : result json :=
  match v with
  | JArr _ | JObj _ => Raise TypeError
  | _ => Ok v
  end.

(** [a == b] on such values; a boolean equals the number 0 or 1. *)
Definition value_eqb (a b : json) : bool :=
  match a, b with
  | JNull, JNull => true
  | JStr s, JStr t => String.eqb s t
  | JBool x, JBool y => Bool.eqb x y
  | JNum p, JNum q => Qeq_bool p q
  | JBool x, JNum q | JNum q, JBool x => Qeq_bool (if x then 1 else 0) q
  | _, _ => false
  end.

Definition set_contains (members : list json) (v : json) : bool :=
  existsb (value_eqb v) members.

Definition set_add (members : list json) (v : json) : list json :=
  if set_contains members v then members else members ++ [v].

(** [{item["filename"] for item in kept}] as the list of its distinct
    members. *)
Definition filename_set (kept : json) : result (list json) :=
  match Py.iter kept with
  | Raise e => Raise e
  | Ok items =>
      match map_result (λ item,
                match Py.getitem item "filename" with
                | Raise e => Raise e
                | Ok v => hashable v
                end) items with
      | Raise e => Raise e
      | Ok values => Ok (fold_left set_add values [])
      end
  end.

(** The strings of a set of values: the members that can be equal to the
    name of an entry. *)
Definition string_members (members : list json) : gset string :=
  list_to_set (omap (λ v, match v with JStr s => Some s | _ => None end) members).

(** ** The suppression store: [load_kept_files] and [save_kept_file] *)

Definition db_exists (db : db_file) : bool :=
  match content db with
  | Missing => false
  | _ => true
  end.

(** [with open(KEPT_FILES_DB, "r") as f: json.load(f)] *)
Definition read_db : M json :=
  db <- get_db ;;
  match read_error db with
  | Some msg => raise (OSError msg)
  | None =>
      match content db with
      | Missing => raise FileNotFoundError
      | Unparseable msg => raise (JSONDecodeError msg)
      | Content data => ret data
      end
  end.

(** [with open(KEPT_FILES_DB, "w") as f: json.dump(data, f, indent=2)] *)
Definition write_db (data : json) : M unit :=
  db <- get_db ;;
  match write_error db with
  | Some (Open_fails msg) => raise (OSError msg)
  | Some (Dump_fails msg remains) =>
      put_db {| content := remains;
                read_error := read_error db;
                write_error := write_error db |} ;;;
      raise (OSError msg)
  | None => put_db {| content := Content data;
                      read_error := read_error db;
                      write_error := write_error db |}
  end.

Definition load_kept_files : M (list json) :=
  db <- get_db ;;
  if negb (db_exists db) then ret []
  else
    try_except
      (data <- read_db ;;
       kept <- lift (Py.get data "kept_files" (JArr [])) ;;
       kept_filenames <- lift (filename_set kept) ;;
       ret kept_filenames)
      (λ e, is_decode_error e || is_key_error e || is_io_error e)
      (λ e, print [Lit "Warning: Could not load kept files database: ";
                   Lit (exn_str e)] ;;;
            ret []).

Definition empty_store : json :=
  JObj [("kept_files"%string, JArr []); ("metadata"%string, JObj [])].

(** [d[k] = v] on the items of a dict. *)
Fixpoint dict_set (d : list (string * json)) (k : string) (v : json)
  : list (string * json) :=
  match d with
  | [] => [(k, v)]
  | (k', v') :: d' =>
      if String.eqb k' k then (k, v) :: d' else (k', v') :: dict_set d' k v
  end.

(** [data[k].append(x)] *)
Definition append_at (data : json) (k : string) (x : json) : result json :=
  match Py.getitem data k with
  | Raise e => Raise e
  | Ok (JArr l) =>
      match data with
      | JObj d => Ok (JObj (dict_set d k (JArr (l ++ [x]))))
      | _ => Raise TypeError
      end
  | Ok _ => Raise AttributeError
  end.

(** [data[k][k2] = x] *)
Definition set_at (data : json) (k k2 : string) (x : json) : result json :=
  match Py.getitem data k with
  | Raise e => Raise e
  | Ok (JObj inner) =>
      match data with
      | JObj d => Ok (JObj (dict_set d k (JObj (dict_set inner k2 x))))
      | _ => Raise TypeError
      end
  | Ok _ => Raise TypeError
  end.

(** [save_kept_file(filename)]; the argument is the value that the keep
    prompt returned for a choice. *)
Definition save_kept_file (w : world) (filename : json) : M unit :=
  db <- get_db ;;
  data <- (if db_exists db then
             try_except read_db
               (λ e, is_decode_error e || is_io_error e)
               (λ _, ret empty_store)
           else ret empty_store) ;;
  kept <- lift (Py.get data "kept_files" (JArr [])) ;;
  existing_filenames <- lift (filename_set kept) ;;
  _ <- lift (hashable filename) ;;
  if negb (set_contains existing_filenames filename) then
    marked <- datetime_now w ;;
    let kept_entry :=
      JObj [("filename"%string, filename);
            ("marked_date"%string, JStr marked);
            ("reason"%string, JStr "User explicitly marked as keep")] in
    data1 <- lift (append_at data "kept_files" kept_entry) ;;
    updated <- datetime_now w ;;
    data2 <- lift (set_at data1 "metadata" "last_updated" (JStr updated)) ;;
    try_except (write_db data2) is_io_error
      (λ e, print [Lit "Warning: Could not save kept file entry: ";
                   Lit (exn_str e)])
  else ret tt.

(** ** Text of the console *)

Definition rule70 : string :=
  String.concat EmptyString (repeat "="%string 70).

Definition newline : string := String "010" EmptyString.

(** ** [display_suggestions] *)

(** [s.get("confidence", "").lower() == level] *)
Definition has_confidence (level : string) (s : json) : result bool :=
  match Py.get s "confidence" (JStr EmptyString) with
  | Raise e => Raise e
  | Ok c => match Py.lower c with
            | Raise e => Raise e
            | Ok l => Ok (String.eqb l level)
            end
  end.

(** The lines printed for one item of a confidence group. *)
Definition display_item (item : json) : M unit :=
  filename <- lift (Py.getitem item "filename") ;;
  print [Lit "   • "; fmt_value filename] ;;;
  reason <- lift (Py.get item "reason" (JStr "N/A")) ;;
  print [Lit "     Reason: "; fmt_value reason] ;;;
  size <- lift (Py.get item "size_mb" (JNum 0)) ;;
  size_text <- lift (fmt_2f size) ;;
  print [Lit "     Size: "; size_text; Lit " MB"] ;;;
  has_age <- lift (Py.contains item "age_days") ;;
  (if has_age : bool then
     age <- lift (Py.getitem item "age_days") ;;
     print [Lit "     Age: "; fmt_value age; Lit " days"]
   else ret tt) ;;;
  print [].

Definition display_group (heading : string) (group : list json) : M unit :=
  match group with
  | [] => ret tt
  | _ => print [Lit heading] ;;; for_each group display_item
  end.

Definition display_suggestions (suggestions : json) : M unit :=
  print [Lit newline; Lit rule70] ;;;
  print [Lit "📋 DELETION SUGGESTIONS"] ;;;
  print [Lit rule70] ;;;
  summary <- lift (Py.get suggestions "summary" (JObj [])) ;;
  print [Lit newline; Lit "📊 Summary:"] ;;;
  scanned <- lift (Py.get summary "total_files_scanned" (JNum 0)) ;;
  print [Lit "   • Total files scanned: "; fmt_value scanned] ;;;
  suggested <- lift (Py.get summary "files_suggested_for_deletion" (JNum 0)) ;;
  print [Lit "   • Files suggested for deletion: "; fmt_value suggested] ;;;
  space <- lift (Py.get summary "total_space_to_free_mb" (JNum 0)) ;;
  space_text <- lift (fmt_2f space) ;;
  print [Lit "   • Space to free: "; space_text; Lit " MB"] ;;;
  suggestion_list <- lift (Py.get suggestions "suggestions" (JArr [])) ;;
  if negb (Py.truthy suggestion_list) then
    print [Lit newline;
           Lit "✅ No files suggested for deletion. Your Downloads folder looks clean!"]
  else
    n <- lift (Py.len suggestion_list) ;;
    print [Lit newline; Lit "🗑️  Suggested for deletion ("; IntStr (Z.of_nat n);
           Lit " files):"; Lit newline] ;;;
    items <- lift (Py.iter suggestion_list) ;;
    high_conf <- lift (filter_result (has_confidence "high") items) ;;
    medium_conf <- lift (filter_result (has_confidence "medium") items) ;;
    low_conf <- lift (filter_result (has_confidence "low") items) ;;
    display_group "🔴 HIGH CONFIDENCE:" high_conf ;;;
    display_group "🟡 MEDIUM CONFIDENCE:" medium_conf ;;;
    display_group "🟢 LOW CONFIDENCE (review carefully):" low_conf ;;;
    print [Lit rule70] ;;;
    print [Lit "⚠️  Please review these suggestions carefully before deleting any files!"] ;;;
    print [Lit rule70].

(** ** The checkbox prompts: [interactive_file_selection] and
       [mark_files_as_keep] *)

(** The marker of an item: the default one when the confidence is none of
    the three levels. *)
Definition confidence_emoji (level : string) : string :=
  if String.eqb level "high" then "🔴"%string
  else if String.eqb level "medium" then "🟡"%string
  else if String.eqb level "low" then "🟢"%string
  else "⚪"%string.

(** [reason[:57] + "..."] when [len(reason) > 60]. *)
Definition truncate_reason (reason : json) : result json :=
  match Py.len reason with
  | Raise e => Raise e
  | Ok _ =>
      match reason with
      | JStr s => Ok (if (60 <? Py.str_len s)%nat
                      then JStr (String.append (Py.str_take 57 s) "...")
                      else reason)
      | JArr l => if (60 <? length l)%nat then Raise TypeError else Ok reason
      | JObj d => if (60 <? length d)%nat then Raise TypeError else Ok reason
      | _ => Raise TypeError
      end
  end.

(** The body of the loop that builds the choices. *)
Definition make_choice (item : json) : result choice :=
  match Py.get item "confidence" (JStr EmptyString) with
  | Raise e => Raise e
  | Ok c =>
  match Py.lower c with
  | Raise e => Raise e
  | Ok level =>
  match Py.get item "reason" (JStr "N/A") with
  | Raise e => Raise e
  | Ok reason0 =>
  match truncate_reason reason0 with
  | Raise e => Raise e
  | Ok reason =>
  match Py.getitem item "filename" with
  | Raise e => Raise e
  | Ok filename =>
  match Py.get item "size_mb" (JNum 0) with
  | Raise e => Raise e
  | Ok size =>
  match fmt_2f size with
  | Raise e => Raise e
  | Ok size_text =>
      Ok {| title := [Lit (confidence_emoji level); Lit " "; fmt_value filename;
                      Lit " ("; size_text; Lit " MB) - "; fmt_value reason];
            value := filename |}
  end end end end end end end.

(** A checkbox prompt over the suggestions of the batch: the choices are
    built, the prompt is shown, and the operator's selection (nothing, if
    the prompt is cancelled) is returned. *)
Definition checkbox_over (message : string)
    (answer : list choice → option (list json)) (suggestions : json)
  : M (list json) :=
  suggestion_list <- lift (Py.get suggestions "suggestions" (JArr [])) ;;
  if negb (Py.truthy suggestion_list) then ret []
  else
    items <- lift (Py.iter suggestion_list) ;;
    choices <- lift (map_result make_choice items) ;;
    emit (Asked_checkbox message choices) ;;;
    ret (default [] (answer choices)).

Definition interactive_file_selection (w : world) (suggestions : json) : M (list json) :=
  checkbox_over "Select files to delete (use space to toggle, enter to confirm):"
                (answer_delete w) suggestions.

Definition mark_files_as_keep (w : world) (suggestions : json) : M (list json) :=
  checkbox_over "Mark files as 'keep' (they won't be suggested again):"
                (answer_keep w) suggestions.

(** ** [get_downloads_folder] and [scan_downloads_folder] *)

Definition get_downloads_folder (w : world) : M (list string) :=
  let downloads := joinpath (home w) "Downloads" in
  current <- get_fs ;;
  if negb (path_exists current downloads)
  then raise FileNotFoundError
  else ret downloads.

(** The name of the entry at [k], if it lies directly in [dir]. *)
Definition child_name (dir k : list string) : option string :=
  if decide (take (length dir) k = dir ∧ length k = S (length dir))
  then last k else None.

(** [p.iterdir()]: the names of the entries of the directory, in the
    order in which the file system lists them. *)
Definition iterdir (current : filesystem) (p : list string) : result (list string) :=
  match resolve current p with
  | None => Raise FileNotFoundError
  | Some q =>
      if is_directory current q
      then Ok (omap (λ kv, child_name q (fst kv)) (map_to_list current))
      else Raise (OSError "[Errno 20] Not a directory")
  end.

(** Rounding to the nearest integer, a tie going to the even one. *)
Definition round_half_even (q : Q) : Z :=
  let f := Qfloor q in
  match Qcompare (q - inject_Z f) (1 # 2) with
  | Lt => f
  | Gt => f + 1
  | Eq => if Z.even f then f else f + 1
  end.

(** [round(x, 2)], as the number of two decimals that the result prints
    as: Python rounds the exact value of [x] to two decimals, a tie going
    to the even one, and returns the float nearest to that decimal, whose
    [str] is the decimal again.  The float itself differs from the
    decimal by its representation error, which this value leaves out. *)
Definition round2 (q : Q) : Q :=
  (inject_Z (round_half_even (q * 100)) / 100)%Q.

(** The position after the last ["."] of [s], counted from the end of
    [s], if there is one. *)
Fixpoint suffix_from (s : string) : option string :=
  match s with
  | EmptyString => None
  | String c s' =>
      match suffix_from s' with
      | Some t => Some t
      | None => if Ascii.eqb c "." then Some s else None
      end
  end.

(** [item.suffix]: from the last dot on, unless the dot is the first or
    the last character of the name. *)
Definition suffix (name0 : string) : string :=
  match name0 with
  | EmptyString => EmptyString
  | String c rest =>
      match suffix_from rest with
      | Some t => if (1 <? String.length t)%nat then t else EmptyString
      | None => EmptyString
      end
  end.

Definition node_is_dir (current : filesystem) (p : list string) : bool :=
  match resolve current p with
  | Some q => is_directory current q
  | None => false
  end.

Definition node_is_file (current : filesystem) (p : list string) : bool :=
  match resolve current p with
  | Some q => match current !! q with
              | Some (File _ _) => true
              | _ => false
              end
  | None => false
  end.

(** The body of the loop of [scan_downloads_folder]; the extension is
    lower-cased letter by letter, A to Z. *)
Definition scan_item (downloads_path : list string) (item_name : string)
  : M (list file_info) :=
  let item := downloads_path ++ [item_name] in
  try_except
    (current <- get_fs ;;
     st <- lift (stat current item) ;;
     ret [ {| name := item_name;
              path := path_str item;
              size_bytes := st_size st;
              size_mb := round2 (inject_Z (st_size st) / (1024 * 1024));
              extension := Py.lower_string (suffix item_name);
              modified_date := st_mtime_iso st;
              is_file := node_is_file current item;
              is_dir := node_is_dir current item |} ])
    is_io_error
    (λ e, print [Lit "Warning: Could not access "; Lit item_name; Lit ": ";
                 Lit (exn_str e)] ;;;
          ret []).

Fixpoint scan_items (downloads_path : list string) (names : list string)
  : M (list file_info) :=
  match names with
  | [] => ret []
  | n :: rest =>
      found <- scan_item downloads_path n ;;
      others <- scan_items downloads_path rest ;;
      ret (found ++ others)
  end.

Definition scan_downloads_folder (downloads_path : list string) : M (list file_info) :=
  current <- get_fs ;;
  names <- lift (iterdir current downloads_path) ;;
  scan_items downloads_path names.

(** ** [get_deletion_suggestions] *)

Definition total_size_mb (files : list file_info) : Q :=
  fold_left (λ acc f, (acc + size_mb f)%Q) files 0%Q.

(** The user prompt of the request; the system prompt is a constant text
    and is not part of the model. *)
Definition user_prompt (files : list file_info) : text :=
  [Lit "I have "; IntStr (Z.of_nat (length files));
   Lit " items in my Downloads folder, totaling ";
   Fixed2 (total_size_mb files); Lit " MB.";
   Lit newline; Lit newline; Lit "Here's the list of files and folders:";
   Lit newline; Lit newline]
  ++ format_files_for_prompt files
  ++ [Lit newline; Lit newline;
      Lit "Please analyze these files and suggest which ones can be safely deleted. Return your response as valid JSON only."].

Definition get_deletion_suggestions (w : world) (files : list file_info) : M json :=
  emit (Sent_request (user_prompt files)) ;;;
  match reply w with
  | Api_returns raw (Decoded result0) => ret result0
  | Api_returns raw (Undecodable msg) =>
      print [Lit "Error: Failed to parse JSON response: "; Lit msg] ;;;
      print [Lit "Raw response: "; Lit raw] ;;;
      raise (JSONDecodeError msg)
  | Api_raises msg =>
      print [Lit "Error calling OpenAI API: "; Lit msg] ;;;
      raise (APIError msg)
  end.

(** ** [run_cleanup_session] *)

(** [with open(output_file, "w") as f: json.dump(suggestions, f, indent=2)]:
    the file is created or overwritten; a directory in its place, or a
    link in its place whose target cannot be created, makes [open] raise. *)
Definition write_suggestions (w : world) (output_file : list string)
    (suggestions : json) : M unit :=
  λ s,
    let written := {| st_size := dump_size w suggestions;
                      st_mtime_iso := now w (ticks s) |} in
    match resolve (fs s) output_file with
    | None => raise FileNotFoundError s
    | Some q =>
        match fs s !! q with
        | Some (Folder _ _) => raise (OSError "[Errno 21] Is a directory") s
        | Some BrokenLink => raise FileNotFoundError s
        | Some (File _ unlink_error) =>
            put_fs (<[q := File written unlink_error]> (fs s)) s
        | None => put_fs (<[q := File written None]> (fs s)) s
        end
    end.

(** The selected values up to the first that is not a string, and
    whether all are strings. *)
Fixpoint leading_filenames (selected : list json) : list string * bool :=
  match selected with
  | [] => ([], true)
  | JStr filename :: rest =>
      let '(names, complete) := leading_filenames rest in
      (filename :: names, complete)
  | _ :: _ => ([], false)
  end.

(** The call [delete_selected_files(selected_files, downloads_path)] on the
    values that the prompt returned: joining the directory with a value
    that is not a string raises [TypeError], after the filenames before it
    have been dealt with. *)
Definition call_delete_selected_files (selected_files : list json)
    (downloads_path : list string) : M deletion_result :=
  current <- get_fs ;;
  let '(filenames, complete) := leading_filenames selected_files in
  let '(result0, fs') := delete_selected_files filenames downloads_path current in
  put_fs fs' ;;;
  if complete : bool then ret result0 else raise TypeError.

Definition print_deletion_results (result0 : deletion_result) : M unit :=
  print [Lit newline; Lit rule70] ;;;
  print [Lit "🗑️  DELETION RESULTS"] ;;;
  print [Lit rule70] ;;;
  print [Lit "✅ Successfully deleted: "; IntStr (Z.of_nat (count result0));
         Lit " file(s)"] ;;;
  print [Lit "💾 Space freed: "; Fixed2 (total_freed_mb result0); Lit " MB"] ;;;
  (match failed result0 with
   | [] => ret tt
   | _ =>
       print [Lit newline; Lit "❌ Failed to delete ";
              IntStr (Z.of_nat (length (failed result0))); Lit " file(s):"] ;;;
       for_each (failed result0) (λ failure, print [Lit "   • "; Lit failure])
   end) ;;;
  print [Lit rule70].

(** The deletion step: selection, confirmation, deletion. *)
Definition deletion_step (w : world) (suggestions : json)
    (downloads_path : list string) : M unit :=
  selected_files <- interactive_file_selection w suggestions ;;
  match selected_files with
  | [] => print [Lit newline; Lit "ℹ️  No files selected for deletion."]
  | _ =>
      emit (Asked_confirm
              [Lit "Are you sure you want to delete ";
               IntStr (Z.of_nat (length selected_files));
               Lit " file(s)? This cannot be undone!"]) ;;;
      match answer_confirm w with
      | Some true =>
          result0 <- call_delete_selected_files selected_files downloads_path ;;
          print_deletion_results result0
      | _ => print [Lit newline; Lit "❌ Deletion cancelled."]
      end
  end.

(** The keep step: selection and write-back to the suppression store. *)
Definition keep_step (w : world) (suggestions : json) : M unit :=
  keep_files <- mark_files_as_keep w suggestions ;;
  match keep_files with
  | [] => ret tt
  | _ =>
      for_each keep_files (save_kept_file w) ;;;
      print [Lit newline; Lit "✅ Marked "; IntStr (Z.of_nat (length keep_files));
             Lit " file(s) as keep. They won't be suggested in future runs."]
  end.

(** The part of the session from the comment "Interactive file selection"
    on. *)
Definition interactive_part (w : world) (suggestions : json)
    (downloads_path : list string) : M unit :=
  suggestion_list <- lift (Py.get suggestions "suggestions" (JArr [])) ;;
  if Py.truthy suggestion_list then
    print [Lit newline; Lit rule70] ;;;
    deletion_step w suggestions downloads_path ;;;
    keep_step w suggestions
  else ret tt.

Definition run_cleanup_session (w : world) : M unit :=
  print [Lit "🔍 Scanning Downloads folder..."] ;;;
  downloads_path <- get_downloads_folder w ;;
  files <- scan_downloads_folder downloads_path ;;
  match files with
  | [] => print [Lit "No files found in Downloads folder."]
  | _ =>
      print [Lit "✅ Found "; IntStr (Z.of_nat (length files));
             Lit " items in Downloads folder"] ;;;
      print [Lit "📁 Location: "; Lit (path_str downloads_path)] ;;;
      print [Lit "💾 Total size: "; Fixed2 (total_size_mb files); Lit " MB"] ;;;
      kept_filenames <- load_kept_files ;;
      remaining <-
        (match kept_filenames with
         | [] => print [] ;;; ret files
         | _ =>
             print [Lit "📌 Filtering out ";
                    IntStr (Z.of_nat (length kept_filenames));
                    Lit " file(s) marked as 'keep'"] ;;;
             let filtered :=
               filter_kept_files files (string_members kept_filenames) in
             print [Lit "📊 "; IntStr (Z.of_nat (length filtered));
                    Lit " file(s) remaining for analysis"; Lit newline] ;;;
             ret filtered
         end) ;;
      print [Lit "🤖 Analyzing files with GPT-4o-mini..."] ;;;
      suggestions <- get_deletion_suggestions w remaining ;;
      display_suggestions suggestions ;;;
      let output_file := joinpath downloads_path "cleanup_suggestions.json" in
      write_suggestions w output_file suggestions ;;;
      print [Lit newline; Lit "💾 Suggestions saved to: "; Lit (path_str output_file)] ;;;
      interactive_part w suggestions downloads_path
  end.

(** * Notions used to state the properties *)




(** What happens to one selected filename, in the words of the executor's
    contract: the entry is removed (its size is the one observed then),
    its resolved path does not exist, or its removal fails with an error. *)
Inductive attempt : Type :=
| Removed (bytes : Z)
| NotFound
| RemovalError (e : exn).

Definition attempt_on (fs : filesystem) (file_path : list string) : attempt :=
  match stat fs file_path with
  | Raise _ => NotFound
  | Ok st => match unlink fs file_path with
             | Ok _ => Removed (st_size st)
             | Raise e => RemovalError e
             end
  end.

Definition fs_after_attempt (fs : filesystem) (file_path : list string) : filesystem :=
  match attempt_on fs file_path, unlink fs file_path with
  | Removed _, Ok fs' => fs'
  | _, _ => fs
  end.

(** The attempts made on the selected filenames, one after the other, each
    on the file system as the attempts before it have left it. *)
Fixpoint attempts (downloads_path : list string) (fs : filesystem)
    (selected : list string) : list (string * attempt) :=
  match selected with
  | [] => []
  | filename :: rest =>
      let file_path := joinpath downloads_path filename in
      (filename, attempt_on fs file_path)
        :: attempts downloads_path (fs_after_attempt fs file_path) rest
  end.

Fixpoint succeeded_names (log : list (string * attempt)) : list string :=
  match log with
  | [] => []
  | (filename, Removed _) :: log' => filename :: succeeded_names log'
  | _ :: log' => succeeded_names log'
  end.

Fixpoint failure_entries (log : list (string * attempt)) : list string :=
  match log with
  | [] => []
  | (_, Removed _) :: log' => failure_entries log'
  | (filename, NotFound) :: log' => not_found_entry filename :: failure_entries log'
  | (filename, RemovalError e) :: log' => error_entry filename e :: failure_entries log'
  end.

(** The failure list in the words of the contract: for each attempt that
    did not remove its entry, the filename followed by " (not found)", or
    by " (error: ", the message of the error and ")". *)
Definition failure_text (filename : string) (a : attempt) : list string :=
  match a with
  | Removed _ => []
  | NotFound => [filename +:+ " (not found)"]
  | RemovalError e => [filename +:+ " (error: " +:+ exn_str e +:+ ")"]
  end.

Definition failure_texts (log : list (string * attempt)) : list string :=
  flat_map (λ fa, failure_text (fst fa) (snd fa)) log.

Fixpoint failed_names (log : list (string * attempt)) : list string :=
  match log with
  | [] => []
  | (_, Removed _) :: log' => failed_names log'
  | (filename, _) :: log' => filename :: failed_names log'
  end.

Definition freed_bytes (log : list (string * attempt)) : Z :=
  foldr (λ fa acc, match snd fa with Removed n => n + acc | _ => acc end) 0 log.

(** The setting of the partial-failure example: a Downloads folder with
    two files, of 3 MiB and 1 MiB; the third selected file is gone. *)
Definition home_dir : list string := ["Users"; "me"]%string.
Definition downloads_dir : list string := home_dir ++ ["Downloads"%string].
Definition a_stat (n : Z) : stat_result :=
  {| st_size := n; st_mtime_iso := "2024-01-01T09:00:00" |}.
Definition a_folder : node := Folder (a_stat 96) "[Errno 1] Operation not permitted".
Definition base_fs : filesystem :=
  <[ downloads_dir := a_folder ]> (<[ home_dir := a_folder ]>
    (<[ ["Users"%string] := a_folder ]> ∅)).
Definition example_fs : filesystem :=
  <[ downloads_dir ++ ["a.dmg"%string] := File (a_stat 3145728) None ]>
    (<[ downloads_dir ++ ["c.zip"%string] := File (a_stat 1048576) None ]> base_fs).

(** The same folder with a third file, of 2 MiB, whose removal is
    refused. *)
Definition locked_fs : filesystem :=
  <[ downloads_dir ++ ["locked.bin"%string]
     := File (a_stat 2097152) (Some "[Errno 13] Permission denied"%string) ]> example_fs.

Definition fs_after_attempts (downloads_path : list string) (fs : filesystem)
    (selected : list string) : filesystem :=
  fold_left (λ fs' filename, fs_after_attempt fs' (joinpath downloads_path filename))
            selected fs.

(** A home directory with a file next to the Downloads folder. *)
Definition secret_path : list string := home_dir ++ ["secret.txt"%string].
Definition escape_fs : filesystem :=
  <[ secret_path := File (a_stat 42) None ]> example_fs.

(** The documented shape of the suppression store: an object with a list
    [kept_files] of entries, each an object with a string [filename], no
    filename twice, and an object [metadata]. *)
Definition entry_name (item : json) : option string :=
  match item with
  | JObj e => match Py.lookup e "filename" with
              | Some (JStr n) => Some n
              | _ => None
              end
  | _ => None
  end.

Definition store_entries (data : json) : option (list json) :=
  match data with
  | JObj d => match Py.lookup d "kept_files", Py.lookup d "metadata" with
              | Some (JArr items), Some (JObj _) => Some items
              | _, _ => None
              end
  | _ => None
  end.

Definition store_names (data : json) : option (list string) :=
  items ← store_entries data; mapM entry_name items.

Definition store_shape (data : json) : bool :=
  match store_names data with
  | Some names => bool_decide (NoDup names)
  | None => false
  end.

(** A store that can be read and that is absent, not decodable, or of the
    documented shape. *)
Definition store_ok (db : db_file) : bool :=
  match read_error db, content db with
  | Some _, _ => false
  | None, Content data => store_shape data
  | None, _ => true
  end.

(** The filenames that the store holds. *)
Definition stored_names (db : db_file) : list string :=
  match content db with
  | Content data => default [] (store_names data)
  | _ => []
  end.

Definition count_name (filename : string) (names : list string) : nat :=
  length (filter (λ n, n = filename) names).

(** What [save_kept_file] works on: the decoded store, or an empty one. *)
Definition loaded (db : db_file) : json :=
  match content db with
  | Content data => data
  | _ => empty_store
  end.

(** The state after an addition: the store holds [data]; or it could
    not be written and a warning was printed, the file being as it was
    (it could not be opened) or as the failed write left it.  The clock
    was read twice. *)
Definition after_addition (s : state) (data : json) : state :=
  match write_error (kept_db s) with
  | None =>
      {| fs := fs s;
         kept_db := {| content := Content data;
                       read_error := read_error (kept_db s);
                       write_error := None |};
         trace := trace s;
         ticks := S (S (ticks s)) |}
  | Some (Open_fails msg) =>
      {| fs := fs s;
         kept_db := kept_db s;
         trace := trace s ++ [Printed [Lit "Warning: Could not save kept file entry: ";
                                       Lit msg]];
         ticks := S (S (ticks s)) |}
  | Some (Dump_fails msg remains) =>
      {| fs := fs s;
         kept_db := {| content := remains;
                       read_error := read_error (kept_db s);
                       write_error := write_error (kept_db s) |};
         trace := trace s ++ [Printed [Lit "Warning: Could not save kept file entry: ";
                                       Lit msg]];
         ticks := S (S (ticks s)) |}
  end.

(** A store of the documented shape, holding one filename, and a state
    and a world around it. *)
Definition example_store : json :=
  JObj [("kept_files"%string,
         JArr [JObj [("filename"%string, JStr "report.pdf");
                     ("marked_date"%string, JStr "2024-02-01T10:00:00");
                     ("reason"%string, JStr "User explicitly marked as keep")]]);
        ("metadata"%string,
         JObj [("last_updated"%string, JStr "2024-02-01T10:00:00")])].

Definition example_state : state :=
  {| fs := example_fs;
     kept_db := {| content := Content example_store;
                   read_error := None; write_error := None |};
     trace := [];
     ticks := 0 |}.

(** A batch of three suggestions: one of high confidence, one whose
    confidence is none of the three levels, one without a confidence. *)
Definition suggestion (filename reason : string) (more : list (string * json)) : json :=
  JObj ([("filename"%string, JStr filename); ("reason"%string, JStr reason)] ++ more).

Definition example_batch : json :=
  JObj [("suggestions"%string,
         JArr [suggestion "a.dmg" "Old installer"
                 [("confidence"%string, JStr "high"); ("size_mb"%string, JNum 3)];
               suggestion "c.zip" "Looks like a duplicate"
                 [("confidence"%string, JStr "unknown"); ("size_mb"%string, JNum 1)];
               suggestion "b.tmp" "Temporary file" []]);
        ("summary"%string,
         JObj [("total_files_scanned"%string, JNum 2);
               ("files_suggested_for_deletion"%string, JNum 3);
               ("total_space_to_free_mb"%string, JNum 4)])].

(** An operator who takes the first choice at every checkbox prompt and
    answers the confirmation with [confirm]. *)
Definition first_choice (choices : list choice) : option (list json) :=
  Some (map value (take 1 choices)).

Definition example_world (confirm : option bool) (r : api_reply) : world :=
  {| home := home_dir;
     reply := r;
     answer_delete := first_choice;
     answer_confirm := confirm;
     answer_keep := first_choice;
     now := λ n, String.append "2024-03-01T12:00:0" (String (ascii_of_nat (48 + n)) EmptyString);
     dump_size := λ _, 512 |}.

Definition example_reply : api_reply :=
  Api_returns "{...}" (Decoded example_batch).

(** The line that opens the report of the deletion executor's outcome. *)
Definition results_header : event := Printed [Lit "🗑️  DELETION RESULTS"].

(** [respects R m]: running [m] takes every state to one related by [R]. *)
Definition respects {A : Type} (R : state → state → Prop) (m : M A) : Prop :=
  ∀ s, R s (snd (m s)).

(** A relation between the states before and after that holds across
    steps that do nothing, is kept by sequencing, and holds across every
    event but the report of a deletion outcome. *)
Record frame (R : state → state → Prop) : Prop := {
  frame_refl : ∀ s, R s s;
  frame_trans : ∀ s1 s2 s3, R s1 s2 → R s2 s3 → R s1 s3;
  frame_emit : ∀ s ev, ev ≠ results_header →
    R s {| fs := fs s; kept_db := kept_db s;
           trace := trace s ++ [ev]; ticks := ticks s |};
}.

(** Nothing that was in the file system has gone, and no outcome of the
    deletion executor has been reported. *)
Definition nothing_deleted (s s' : state) : Prop :=
  (∀ p, is_Some (fs s !! p) → is_Some (fs s' !! p))
  ∧ (results_header ∈ trace s' → results_header ∈ trace s).

(** The file system and the suppression store are as they were. *)
Definition untouched (s s' : state) : Prop :=
  fs s' = fs s ∧ kept_db s' = kept_db s.

(** A payload that is a JSON object without the key [suggestions]. *)
Definition empty_payload_world : world :=
  example_world None (Api_returns "{}" (Decoded (JObj []))).

(** A payload whose one suggestion has no [filename]. *)
Definition nameless_payload : json :=
  JObj [("suggestions"%string, JArr [JObj [("reason"%string, JStr "old")]])].

Definition nameless_payload_world : world :=
  example_world None (Api_returns "{...}" (Decoded nameless_payload)).

(** Whether a filename occurs in what was printed. *)
Definition printed_filename (filename : string) (evs : list event) : bool :=
  existsb (λ ev, match ev with
                 | Printed line =>
                     existsb (λ p, match p with
                                   | Lit s => String.eqb s filename
                                   | _ => false
                                   end) line
                 | _ => false
                 end) evs.

Definition example_items : list json :=
  match Py.get example_batch "suggestions" (JArr []) with
  | Ok (JArr items) => items
  | _ => []
  end.

(** The trace after is the trace before, followed by more events. *)
Definition extends (s s' : state) : Prop :=
  ∃ evs, trace s' = trace s ++ evs.

(** The file system is as it was. *)
Definition same_files (s s' : state) : Prop := fs s' = fs s.

(** [returns m]: [m] raises nothing, whatever the state. *)
Definition returns {A : Type} (m : M A) : Prop :=
  ∀ s, ∃ a, fst (m s) = Ok a.

Definition delete_message : string :=
  "Select files to delete (use space to toggle, enter to confirm):".
Definition keep_message : string :=
  "Mark files as 'keep' (they won't be suggested again):".

(** The store that [save_kept_file] writes when it starts from nothing:
    one entry, marked at the first reading of the clock, and the time of
    the second reading as the last update. *)
Definition fresh_store (filename marked updated : string) : json :=
  JObj [("kept_files"%string,
         JArr [JObj [("filename"%string, JStr filename);
                     ("marked_date"%string, JStr marked);
                     ("reason"%string, JStr "User explicitly marked as keep")]]);
        ("metadata"%string, JObj [("last_updated"%string, JStr updated)])].

(** States whose store is an object without keys, and a text that is not
    JSON. *)
Definition state_with_store (c : db_content) : state :=
  {| fs := example_fs;
     kept_db := {| content := c; read_error := None; write_error := None |};
     trace := [];
     ticks := 0 |}.
Definition keyless_state : state := state_with_store (Content (JObj [])).

(** A state whose store file is absent and cannot be opened for writing. *)
Definition unwritable_state : state :=
  {| fs := example_fs;
     kept_db := {| content := Missing; read_error := None;
                   write_error := Some (Open_fails "[Errno 13] Permission denied") |};
     trace := [];
     ticks := 0 |}.
Definition undecodable_state : state := state_with_store (Unparseable "Expecting value").

(** An entry that [unlink] can remove: a file without an error on
    removal, or a link. *)
Definition not_a_directory (current : filesystem) (q : list string) : Prop :=
  (∃ st, current !! q = Some (File st None)) ∨ current !! q = Some BrokenLink.

(** A record of the scan agrees with what [stat] says of its entry. *)
Definition record_of (current : filesystem) (dir : list string) (r : file_info) : Prop :=
  stat current (dir ++ [name r])
  = Ok {| st_size := size_bytes r; st_mtime_iso := modified_date r |}
  ∧ path r = path_str (dir ++ [name r])
  ∧ is_dir r = node_is_dir current (dir ++ [name r])
  ∧ is_file r = node_is_file current (dir ++ [name r]).

(** A suggestion that is in none of the three groups of the display. *)
Definition in_no_group (item : json) : Prop :=
  has_confidence "high" item = Ok false
  ∧ has_confidence "medium" item = Ok false
  ∧ has_confidence "low" item = Ok false.

(** The marker of the group in which the display puts a suggestion: that
    of the first of the groups "high", "medium" and "low" whose test the
    suggestion passes, and the default marker when it passes none. *)
Definition in_group (level : string) (item : json) : bool :=
  match has_confidence level item with
  | Ok true => true
  | _ => false
  end.

Definition group_marker (item : json) : string :=
  if in_group "high" item then "🔴"%string
  else if in_group "medium" item then "🟡"%string
  else if in_group "low" item then "🟢"%string
  else "⚪"%string.

(** What [display_suggestions] prints around the groups for a batch of
    [n] suggestions without a summary. *)
Definition display_frame (n : nat) : list event :=
  [ Printed [Lit newline; Lit rule70];
    Printed [Lit "📋 DELETION SUGGESTIONS"];
    Printed [Lit rule70];
    Printed [Lit newline; Lit "📊 Summary:"];
    Printed [Lit "   • Total files scanned: "; ValueStr (JNum 0)];
    Printed [Lit "   • Files suggested for deletion: "; ValueStr (JNum 0)];
    Printed [Lit "   • Space to free: "; Fixed2 0; Lit " MB"];
    Printed [Lit newline; Lit "🗑️  Suggested for deletion ("; IntStr (Z.of_nat n);
             Lit " files):"; Lit newline];
    Printed [Lit rule70];
    Printed [Lit "⚠️  Please review these suggestions carefully before deleting any files!"];
    Printed [Lit rule70] ].

(** An operator who cancels the delete prompt, would confirm, and takes
    the first choice at the keep prompt. *)
Definition unselecting_world : world :=
  {| home := home_dir;
     reply := example_reply;
     answer_delete := λ _, None;
     answer_confirm := Some true;
     answer_keep := first_choice;
     now := λ _, "2024-03-01T12:00:00"%string;
     dump_size := λ _, 512 |}.

(** A string without a slash. *)
Definition no_slash (s : string) : Prop :=
  Forall (λ c, c ≠ "/"%char) (list_ascii_of_string s).

(** * Properties *)

(** ** Order of strings *)





(** ** The suppression filter *)

Lemma filter_kept_files_filter (files : list file_info) (kept : gset string) :
  filter_kept_files files kept = filter (λ f, name f ∉ kept) files.
Proof.
  induction files as [|f files IH]; [done|]. simpl.
  rewrite filter_cons. destruct (decide (name f ∉ kept)); by rewrite IH.
Qed.

(** C3: [filter_kept_files] returns exactly the records whose name is not
    suppressed (it is the order-preserving selection of them: a sublist of
    the input that holds a record iff the input holds it and its name is
    not in the set, with the multiplicity it has in the input), and
    filtering a second time with the same set changes nothing. *)
Theorem filter_kept_files_spec (files : list file_info) (kept : gset string) :
  filter_kept_files files kept = filter (λ f, name f ∉ kept) files
  ∧ sublist (filter_kept_files files kept) files
  ∧ (∀ f, f ∈ filter_kept_files files kept ↔ f ∈ files ∧ name f ∉ kept)
  ∧ filter_kept_files (filter_kept_files files kept) kept
    = filter_kept_files files kept.
Proof.
  rewrite !filter_kept_files_filter.
  split; [done|]. split; [apply sublist_filter|]. split.
  - intros f. rewrite list_elem_of_filter. tauto.
  - induction files as [|f files IH]; [done|].
    rewrite filter_cons. destruct (decide (name f ∉ kept)) as [Hn|Hn]; [|done].
    rewrite filter_cons, decide_True by done. by rewrite IH.
Qed.

(** ** The order of the prompt *)




Lemma sorted_insert_perm (x : file_info) (l : list file_info) :
  Permutation (sorted_insert x l) (x :: l).
Proof.
  induction l as [|y l IH]; simpl; [done|].
  destruct (key_lt (sort_key y) (sort_key x)); [|done].
  rewrite IH. apply perm_swap.
Qed.


Lemma sorted_files_perm (files : list file_info) :
  Permutation (sorted_files files) files.
Proof.
  induction files as [|x files IH]; simpl; [done|].
  by rewrite sorted_insert_perm, IH.
Qed.



(** ** The deletion executor *)

Lemma path_exists_stat (fs : filesystem) (p : list string) :
  path_exists fs p = match stat fs p with Ok _ => true | Raise _ => false end.
Proof. done. Qed.

(** One turn of the loop does what the attempt on the entry says. *)
Lemma delete_one_attempt (dir : list string) (vars : deletion_vars) (f : string) :
  let p := joinpath dir f in
  let vars' := delete_one dir vars f in
  let log := [(f, attempt_on (v_fs vars) p)] in
  v_deleted vars' = v_deleted vars ++ succeeded_names log
  ∧ v_failed vars' = v_failed vars ++ failure_entries log
  ∧ Qeq (v_total_freed_mb vars')
        (v_total_freed_mb vars + inject_Z (freed_bytes log) / (1024 * 1024))
  ∧ v_fs vars' = fs_after_attempt (v_fs vars) p.
Proof.
  cbv zeta. unfold delete_one, fs_after_attempt, attempt_on, path_exists.
  destruct (stat (v_fs vars) (joinpath dir f)) as [st|e]; simpl;
    [destruct (unlink (v_fs vars) (joinpath dir f)) as [fs'|e]; simpl|];
    rewrite ?app_nil_r, ?Z.add_0_r; split_and!; try done.
  - unfold Qdiv. rewrite Qmult_0_l, Qplus_0_r. reflexivity.
  - unfold Qdiv. rewrite Qmult_0_l, Qplus_0_r. reflexivity.
Qed.

Lemma freed_bytes_cons (fa : string * attempt) (log : list (string * attempt)) :
  freed_bytes (fa :: log) = freed_bytes [fa] + freed_bytes log.
Proof. unfold freed_bytes. simpl. destruct (snd fa); lia. Qed.

Lemma delete_loop_attempts (dir : list string) (selected : list string) :
  ∀ vars : deletion_vars,
    let vars' := delete_loop dir selected vars in
    let log := attempts dir (v_fs vars) selected in
    v_deleted vars' = v_deleted vars ++ succeeded_names log
    ∧ v_failed vars' = v_failed vars ++ failure_entries log
    ∧ Qeq (v_total_freed_mb vars')
          (v_total_freed_mb vars + inject_Z (freed_bytes log) / (1024 * 1024))
    ∧ v_fs vars' = fs_after_attempts dir (v_fs vars) selected.
Proof.
  induction selected as [|f rest IH]; intros vars; cbv zeta.
  - simpl. rewrite !app_nil_r. split_and!; try done.
    unfold Qdiv. rewrite Qmult_0_l, Qplus_0_r. reflexivity.
  - destruct (delete_one_attempt dir vars f) as (Hd & Hf & Ht & Hfs).
    destruct (IH (delete_one dir vars f)) as (Hd' & Hf' & Ht' & Hfs').
    unfold delete_loop in *. simpl fold_left. simpl attempts.
    rewrite Hfs in Hd', Hf', Ht', Hfs'.
    rewrite Hd', Hf', Hfs', Hd, Hf. clear Hd' Hf' Hfs' Hd Hf.
    rewrite <- !app_assoc. split_and!.
    + simpl. by destruct (attempt_on (v_fs vars) (joinpath dir f)).
    + simpl. by destruct (attempt_on (v_fs vars) (joinpath dir f)).
    + eapply Qeq_trans; [exact Ht'|].
      eapply Qeq_trans; [apply Qplus_comp; [exact Ht|apply Qeq_refl]|].
      rewrite (freed_bytes_cons (f, _) (attempts _ _ rest)).
      rewrite inject_Z_plus. unfold Qdiv. ring.
    + done.
Qed.

Lemma attempts_names (dir : list string) (selected : list string) :
  ∀ fs : filesystem, map fst (attempts dir fs selected) = selected.
Proof. induction selected as [|f rest IH]; intros fs; simpl; [done|]. by rewrite IH. Qed.

Lemma attempts_accounted (log : list (string * attempt)) :
  (length (succeeded_names log) + length (failure_entries log))%nat = length log.
Proof.
  induction log as [|[f a] log IH]; [done|].
  destruct a; simpl; lia.
Qed.

Lemma failure_texts_entries (log : list (string * attempt)) :
  failure_texts log = failure_entries log.
Proof.
  induction log as [|[f a] log IH]; [done|].
  unfold failure_texts in *. destruct a; simpl; by rewrite IH.
Qed.

(** C4: the executor makes one attempt per selected filename, in order, each
    on the file system as the earlier attempts left it, whatever their
    outcome; a filename whose path does not exist is reported as the
    filename followed by " (not found)", one whose removal raises as the
    filename followed by " (error: ", the message of the error and ")",
    the others as deleted; the freed total is the sum of the sizes
    observed at the successful removals (in MB, 1024 * 1024 bytes each).
    With three files selected of which one is gone, there are two
    successes and one "not found" failure, and the total is that of the
    two files.  With a file whose removal is refused selected first, then
    a removable file, then a file that is gone, the first and the last
    are failures, with the message of the refusal and "not found", the
    second is deleted, and the refused file is still there. *)
Theorem delete_selected_files_outcome
    (selected : list string) (dir : list string) (fs : filesystem) :
  let r := fst (delete_selected_files selected dir fs) in
  let log := attempts dir fs selected in
  map fst log = selected
  ∧ deleted r = succeeded_names log
  ∧ failed r = failure_entries log
  ∧ failed r = failure_texts log
  ∧ count r = length (succeeded_names log)
  ∧ (length (deleted r) + length (failed r))%nat = length selected
  ∧ Qeq (total_freed_mb r) (inject_Z (freed_bytes log) / (1024 * 1024))
  ∧ snd (delete_selected_files selected dir fs) = fs_after_attempts dir fs selected
  ∧ (let r3 := fst (delete_selected_files ["a.dmg"; "b.tmp"; "c.zip"]%string
                                          downloads_dir example_fs) in
     deleted r3 = ["a.dmg"; "c.zip"]%string
     ∧ failed r3 = ["b.tmp (not found)"%string]
     ∧ count r3 = 2%nat
     ∧ Qeq (total_freed_mb r3) (inject_Z (3145728 + 1048576) / (1024 * 1024)))
  ∧ (let out := delete_selected_files ["locked.bin"; "a.dmg"; "b.tmp"]%string
                                      downloads_dir locked_fs in
     deleted (fst out) = ["a.dmg"%string]
     ∧ failed (fst out) = ["locked.bin (error: [Errno 13] Permission denied)"%string;
                           "b.tmp (not found)"%string]
     ∧ count (fst out) = 1%nat
     ∧ Qeq (total_freed_mb (fst out)) (inject_Z 3145728 / (1024 * 1024))
     ∧ snd out !! (downloads_dir ++ ["locked.bin"%string])
       = Some (File (a_stat 2097152) (Some "[Errno 13] Permission denied"%string))
     ∧ snd out !! (downloads_dir ++ ["a.dmg"%string]) = None).
Proof.
  cbv zeta. unfold delete_selected_files. simpl fst. simpl snd.
  destruct (delete_loop_attempts dir selected
              {| v_deleted := []; v_failed := []; v_total_freed_mb := 0; v_fs := fs |})
    as (Hd & Hf & Ht & Hfs).
  simpl in Hd, Hf, Ht, Hfs. simpl deleted. simpl failed. simpl count.
  simpl total_freed_mb.
  split; [apply attempts_names|]. split; [done|]. split; [done|].
  split; [by rewrite failure_texts_entries|].
  split; [by rewrite Hd|].
  split; [rewrite Hd, Hf, attempts_accounted;
          by rewrite <- (length_map fst), attempts_names|].
  split; [eapply Qeq_trans; [exact Ht|ring]|]. split; [done|].
  split; vm_compute; split_and!; done.
Qed.

Lemma attempts_partition (log : list (string * attempt)) :
  Permutation (succeeded_names log ++ failed_names log) (map fst log).
Proof.
  induction log as [|[f a] log IH]; [done|].
  destruct a; simpl.
  - by rewrite IH.
  - rewrite <- Permutation_middle. by rewrite IH.
  - rewrite <- Permutation_middle. by rewrite IH.
Qed.

Lemma delete_selected_files_log
    (selected : list string) (dir : list string) (fs : filesystem) :
  deleted (fst (delete_selected_files selected dir fs))
    = succeeded_names (attempts dir fs selected)
  ∧ failed (fst (delete_selected_files selected dir fs))
    = failure_entries (attempts dir fs selected).
Proof.
  unfold delete_selected_files. simpl.
  by destruct (delete_loop_attempts dir selected
              {| v_deleted := []; v_failed := []; v_total_freed_mb := 0; v_fs := fs |})
    as (-> & -> & _).
Qed.

(** C8, as stated, fails: when a filename is selected twice, its first
    attempt removes the file and its second finds nothing, so the filename
    is both among the deleted and in a "(not found)" failure. *)
Lemma delete_selected_files_duplicate_overlap :
  let selected := ["a.dmg"; "a.dmg"]%string in
  let r := fst (delete_selected_files selected downloads_dir example_fs) in
  let log := attempts downloads_dir example_fs selected in
  deleted r = ["a.dmg"%string]
  ∧ failed r = [not_found_entry "a.dmg"]
  ∧ "a.dmg"%string ∈ succeeded_names log
  ∧ "a.dmg"%string ∈ failed_names log
  ∧ ¬ (succeeded_names log ## failed_names log).
Proof.
  cbv zeta.
  assert (Hlog : attempts downloads_dir example_fs ["a.dmg"; "a.dmg"]%string
                 = [("a.dmg"%string, Removed 3145728); ("a.dmg"%string, NotFound)])
    by (vm_compute; reflexivity).
  destruct (delete_selected_files_log ["a.dmg"; "a.dmg"]%string downloads_dir example_fs)
    as [-> ->].
  rewrite Hlog. simpl.
  split; [done|]. split; [done|].
  split; [apply list_elem_of_here|]. split; [apply list_elem_of_here|].
  intros Hdisj. apply (Hdisj "a.dmg"%string); apply list_elem_of_here.
Qed.

(** C8, amended: for a selection without duplicates, the deleted filenames
    and the filenames the failure entries were made for are disjoint, and
    together they are the selection. *)
Theorem delete_selected_files_disjoint
    (selected : list string) (dir : list string) (fs : filesystem) :
  NoDup selected →
  let r := fst (delete_selected_files selected dir fs) in
  let log := attempts dir fs selected in
  deleted r = succeeded_names log
  ∧ failed r = failure_entries log
  ∧ succeeded_names log ## failed_names log
  ∧ Permutation (succeeded_names log ++ failed_names log) selected.
Proof.
  intros Hnd. cbv zeta.
  destruct (delete_selected_files_log selected dir fs) as [-> ->].
  pose proof (attempts_partition (attempts dir fs selected)) as Hp.
  rewrite attempts_names in Hp.
  split; [done|]. split; [done|]. split; [|done].
  rewrite <- Hp in Hnd. apply NoDup_app in Hnd as (_ & Hd & _).
  intros x Hx Hy. by apply (Hd x).
Qed.

Lemma delete_selected_files_disjoint_witness :
  let selected := ["a.dmg"; "b.tmp"; "c.zip"]%string in
  let log := attempts downloads_dir example_fs selected in
  NoDup selected ∧ succeeded_names log ## failed_names log.
Proof.
  cbv zeta.
  assert (Hnd : NoDup ["a.dmg"; "b.tmp"; "c.zip"]%string)
    by (apply (bool_decide_unpack (NoDup _)); vm_compute; exact I).
  split; [exact Hnd|].
  exact (proj1 (proj2 (proj2
    (delete_selected_files_disjoint _ downloads_dir example_fs Hnd)))).
Defined.

(** C10: the path of an attempt is the directory joined with the filename
    as it is given, and nothing confines it to the directory: with
    "../secret.txt" (or an absolute filename) selected, the entry that is
    removed is a file of the home directory, outside the Downloads folder. *)
Theorem delete_selected_files_outside_directory :
  joinpath downloads_dir "../secret.txt" = downloads_dir ++ [".."; "secret.txt"]%string
  ∧ resolve escape_fs (joinpath downloads_dir "../secret.txt") = Some secret_path
  ∧ joinpath downloads_dir "/Users/me/secret.txt" = secret_path
  ∧ ¬ (downloads_dir `prefix_of` secret_path)
  ∧ is_Some (escape_fs !! secret_path)
  ∧ Forall (λ filename,
      deleted (fst (delete_selected_files [filename] downloads_dir escape_fs))
        = [filename]
      ∧ snd (delete_selected_files [filename] downloads_dir escape_fs) !! secret_path
        = None
      ∧ snd (delete_selected_files [filename] downloads_dir escape_fs)
        = delete secret_path escape_fs)
      ["../secret.txt"; "/Users/me/secret.txt"]%string.
Proof.
  split; [by vm_compute|]. split; [by vm_compute|]. split; [by vm_compute|].
  split.
  - intros [k Hk]. vm_compute in Hk. discriminate Hk.
  - split; [by vm_compute; eexists|].
    repeat constructor; by vm_compute.
Qed.

(** ** The suppression store *)

Lemma lookup_dict_set_eq (d : list (string * json)) (k : string) (v : json) :
  Py.lookup (dict_set d k v) k = Some v.
Proof.
  induction d as [|[k' v'] d IH]; simpl.
  - by rewrite String.eqb_refl.
  - destruct (String.eqb k' k) eqn:Hk; simpl.
    + by rewrite String.eqb_refl.
    + by rewrite Hk.
Qed.

Lemma lookup_dict_set_ne (d : list (string * json)) (k k' : string) (v : json) :
  k ≠ k' → Py.lookup (dict_set d k v) k' = Py.lookup d k'.
Proof.
  intros Hne. induction d as [|[k0 v0] d IH]; simpl.
  - destruct (String.eqb k k') eqn:Hk; [|done].
    by apply String.eqb_eq in Hk.
  - destruct (String.eqb k0 k) eqn:Hk; simpl.
    + apply String.eqb_eq in Hk as ->.
      destruct (String.eqb k k') eqn:Hk'; [|done].
      by apply String.eqb_eq in Hk'.
    + by rewrite IH.
Qed.

Lemma map_result_entries (items : list json) (names : list string) :
  mapM entry_name items = Some names →
  map_result (λ item, match Py.getitem item "filename" with
                      | Raise e => Raise e
                      | Ok v => hashable v
                      end) items = Ok (map JStr names).
Proof.
  revert names. induction items as [|item items IH]; intros names Hm.
  - simpl in Hm. by injection Hm as <-.
  - rewrite mapM_cons in Hm || simpl in Hm.
    destruct (entry_name item) as [n|] eqn:Hn; [|done]. simpl in Hm.
    destruct (mapM entry_name items) as [ns|] eqn:Hns; [|done]. simpl in Hm.
    injection Hm as <-. simpl. rewrite (IH ns eq_refl).
    destruct item as [| | | |?|e]; try done. simpl in Hn |- *.
    destruct (Py.lookup e "filename") as [[]|]; try done.
    simpl. by injection Hn as ->.
Qed.

Lemma set_contains_strings (l : list string) (f : string) :
  set_contains (map JStr l) (JStr f) = bool_decide (f ∈ l).
Proof.
  unfold set_contains. induction l as [|n l IH]; simpl.
  - done.
  - rewrite IH. destruct (String.eqb f n) eqn:Hfn; simpl.
    + apply String.eqb_eq in Hfn as ->. symmetry.
      apply bool_decide_eq_true. apply list_elem_of_here.
    + apply String.eqb_neq in Hfn.
      apply bool_decide_ext. rewrite elem_of_cons. tauto.
Qed.

Lemma fold_set_add_strings (names : list string) :
  ∀ acc : list string,
    ∃ l, fold_left set_add (map JStr names) (map JStr acc) = map JStr l
         ∧ ∀ f, f ∈ l ↔ f ∈ acc ∨ f ∈ names.
Proof.
  induction names as [|n names IH]; intros acc; simpl.
  - exists acc. split; [done|]. intros f. rewrite elem_of_nil. tauto.
  - unfold set_add at 2. rewrite set_contains_strings.
    destruct (bool_decide (n ∈ acc)) eqn:Hn.
    + apply bool_decide_eq_true in Hn.
      destruct (IH acc) as (l & -> & Hl). exists l. split; [done|].
      intros f. rewrite Hl, elem_of_cons.
      split; [tauto|]. intros [?|[->|?]]; tauto.
    + replace (map JStr acc ++ [JStr n]) with (map JStr (acc ++ [n]))
        by (by rewrite map_app).
      destruct (IH (acc ++ [n])) as (l & -> & Hl). exists l. split; [done|].
      intros f. rewrite Hl, elem_of_app, elem_of_cons, elem_of_cons, elem_of_nil. tauto.
Qed.

Lemma filename_set_contains (items : list json) (names : list string) (f : string) :
  mapM entry_name items = Some names →
  ∃ members, filename_set (JArr items) = Ok members
             ∧ set_contains members (JStr f) = bool_decide (f ∈ names).
Proof.
  intros Hm. unfold filename_set. simpl.
  rewrite (map_result_entries items names Hm).
  destruct (fold_set_add_strings names []) as (l & Hl & Hin). simpl in Hl.
  exists (map JStr l). split; [by rewrite Hl|].
  rewrite set_contains_strings. apply bool_decide_ext.
  rewrite Hin, elem_of_nil. tauto.
Qed.

Lemma store_names_inv (data : json) (names : list string) :
  store_names data = Some names →
  ∃ d items md, data = JObj d
    ∧ Py.lookup d "kept_files" = Some (JArr items)
    ∧ Py.lookup d "metadata" = Some (JObj md)
    ∧ mapM entry_name items = Some names.
Proof.
  unfold store_names, store_entries. intros H.
  destruct data as [| | | | |d]; try done.
  destruct (Py.lookup d "kept_files") as [[| | | |items|]|] eqn:Hk; try done.
  destruct (Py.lookup d "metadata") as [[| | | | |md]|] eqn:Hmd; try done.
  simpl in H. by exists d, items, md.
Qed.

Lemma add_entry_names (data : json) (names : list string) (f t1 t2 : string) :
  store_names data = Some names →
  ∃ data1 data2,
    append_at data "kept_files"
      (JObj [("filename"%string, JStr f); ("marked_date"%string, JStr t1);
             ("reason"%string, JStr "User explicitly marked as keep")]) = Ok data1
    ∧ set_at data1 "metadata" "last_updated" (JStr t2) = Ok data2
    ∧ store_names data2 = Some (names ++ [f]).
Proof.
  intros (d & items & md & -> & Hk & Hmd & Hm)%store_names_inv.
  eexists _, _. unfold append_at, set_at. simpl. rewrite Hk. simpl.
  split; [reflexivity|]. simpl.
  rewrite lookup_dict_set_ne by done. rewrite Hmd.
  split; [reflexivity|].
  unfold store_names, store_entries.
  rewrite lookup_dict_set_ne by done. rewrite !lookup_dict_set_eq. simpl.
  apply mapM_Some. apply Forall2_app.
  - by apply mapM_Some.
  - by repeat constructor.
Qed.

Lemma read_phase (s : state) :
  read_error (kept_db s) = None →
  (if db_exists (kept_db s)
   then try_except read_db (λ e, is_decode_error e || is_io_error e)
                   (λ _, ret empty_store)
   else ret empty_store) s = (Ok (loaded (kept_db s)), s).
Proof.
  intros Hr. unfold db_exists, loaded, try_except, read_db, bind, get_db.
  destruct (content (kept_db s)) eqn:Hc; simpl; rewrite ?Hr, ?Hc; done.
Qed.

Lemma save_kept_file_eval (w : world) (s : state) (f : string) (names : list string) :
  read_error (kept_db s) = None →
  store_names (loaded (kept_db s)) = Some names →
  ∃ data2, store_names data2 = Some (names ++ [f])
    ∧ save_kept_file w (JStr f) s
      = (Ok tt, if bool_decide (f ∈ names) then s else after_addition s data2).
Proof.
  intros Hr Hn.
  destruct (add_entry_names _ names f (now w (ticks s)) (now w (S (ticks s))) Hn)
    as (data1 & data2 & Ha & Hs & Hn2).
  exists data2. split; [done|].
  pose proof Hn as (d & items & md & Hd & Hk & Hmd & Hm)%store_names_inv.
  destruct (filename_set_contains items names f Hm) as (members & Hfs & Hc).
  unfold save_kept_file. unfold bind at 1. unfold get_db at 1.
  unfold bind at 1. rewrite (read_phase s Hr).
  rewrite Hd. unfold bind at 1, lift at 1. simpl Py.get. rewrite Hk. simpl default.
  unfold bind at 1, lift at 1. rewrite Hfs.
  unfold bind at 1, lift at 1. simpl hashable. rewrite Hc.
  destruct (bool_decide (f ∈ names)); simpl negb; cbv iota; [done|].
  rewrite <- Hd.
  unfold bind, datetime_now, lift, try_except, write_db, get_db, put_db, print, emit,
    after_addition.
  simpl. rewrite Ha. simpl. rewrite Hs.
  destruct (write_error (kept_db s)) as [[msg|msg remains]|] eqn:Hw;
    unfold bind, raise; simpl; rewrite ?Hw; simpl; rewrite ?Hw; done.
Qed.

Lemma count_name_absent (f : string) (names : list string) :
  f ∉ names → count_name f names = 0%nat.
Proof.
  unfold count_name. induction names as [|n names IH]; [done|].
  intros [Hne Hni]%not_elem_of_cons. rewrite filter_cons.
  rewrite decide_False by done. by apply IH.
Qed.

Lemma count_name_nodup (f : string) (names : list string) :
  NoDup names → f ∈ names → count_name f names = 1%nat.
Proof.
  unfold count_name. induction names as [|n names IH]; intros Hnd Hin.
  - by apply elem_of_nil in Hin.
  - apply NoDup_cons in Hnd as [Hn Hnd]. rewrite filter_cons.
    destruct (decide (n = f)) as [->|Hne]; simpl.
    + f_equal. by apply (count_name_absent f names).
    + apply IH; [done|]. apply elem_of_cons in Hin as [->|?]; done.
Qed.

Lemma count_name_app (f : string) (l1 l2 : list string) :
  count_name f (l1 ++ l2) = (count_name f l1 + count_name f l2)%nat.
Proof. unfold count_name. by rewrite filter_app, length_app. Qed.

Lemma store_ok_names (db : db_file) :
  store_ok db = true →
  read_error db = None
  ∧ store_names (loaded db) = Some (stored_names db)
  ∧ NoDup (stored_names db).
Proof.
  unfold store_ok, loaded, stored_names, store_shape.
  destruct (read_error db); [done|].
  destruct (content db) as [|msg|data]; intros H.
  - split; [done|]. split; [done|]. constructor.
  - split; [done|]. split; [done|]. constructor.
  - destruct (store_names data) as [names|]; [|done].
    apply bool_decide_eq_true in H. done.
Qed.

(** C7, as stated, fails: the store that two additions leave need not
    hold the filename.  When the store cannot be opened for writing, each
    addition prints a warning and returns, and the store is as it was:
    absent, with no entry for the filename.  (And on a store that decodes
    to an object without its keys, the addition raises [KeyError].) *)
Lemma save_kept_file_unwritable_store :
  let w := example_world None example_reply in
  let r1 := save_kept_file w (JStr "a.dmg") unwritable_state in
  let r2 := save_kept_file w (JStr "a.dmg") (snd r1) in
  fst r1 = Ok tt
  ∧ fst r2 = Ok tt
  ∧ kept_db (snd r2) = kept_db unwritable_state
  ∧ content (kept_db (snd r2)) = Missing
  ∧ count_name "a.dmg" (stored_names (kept_db (snd r2))) = 0%nat
  ∧ trace (snd r2)
    = [Printed [Lit "Warning: Could not save kept file entry: ";
                Lit "[Errno 13] Permission denied"];
       Printed [Lit "Warning: Could not save kept file entry: ";
                Lit "[Errno 13] Permission denied"]]
  ∧ fst (save_kept_file w (JStr "a.dmg") keyless_state)
    = Raise (KeyError "kept_files").
Proof.
  cbv zeta. split_and!; by vm_compute.
Qed.

(** C7, amended: on a store that can be read and is absent, not decodable
    or of the documented shape, adding a filename that the store holds
    changes nothing and raises nothing, and a first addition never
    raises.  When the store can be written, the store then holds the
    filename exactly once and a second addition changes nothing.  When
    the store cannot be opened for writing, both additions return and the
    store stays as it was.  When the write fails after the file was
    opened, an addition of a filename that the store does not hold leaves
    in the file what the failed write left.  In both cases of failure an
    addition of a filename that the store does not hold prints a warning
    with the message of the error, and prints nothing else. *)
Theorem save_kept_file_idempotent (w : world) (s : state) (filename : string) :
  store_ok (kept_db s) = true →
  let r1 := save_kept_file w (JStr filename) s in
  let r2 := save_kept_file w (JStr filename) (snd r1) in
  (filename ∈ stored_names (kept_db s) → r1 = (Ok tt, s) ∧ r2 = (Ok tt, s))
  ∧ fst r1 = Ok tt
  ∧ match write_error (kept_db s) with
    | None => count_name filename (stored_names (kept_db (snd r1))) = 1%nat
              ∧ r2 = (Ok tt, snd r1)
    | Some (Open_fails msg) =>
        fst r2 = Ok tt
        ∧ kept_db (snd r1) = kept_db s
        ∧ kept_db (snd r2) = kept_db s
        ∧ trace (snd r1)
          = trace s ++ (if bool_decide (filename ∈ stored_names (kept_db s)) then []
                        else [Printed [Lit "Warning: Could not save kept file entry: ";
                                       Lit msg]])
    | Some (Dump_fails msg remains) =>
        content (kept_db (snd r1))
        = (if bool_decide (filename ∈ stored_names (kept_db s))
           then content (kept_db s) else remains)
        ∧ trace (snd r1)
          = trace s ++ (if bool_decide (filename ∈ stored_names (kept_db s)) then []
                        else [Printed [Lit "Warning: Could not save kept file entry: ";
                                       Lit msg]])
    end.
Proof.
  intros (Hr & Hn & Hnd)%store_ok_names. cbv zeta.
  destruct (save_kept_file_eval w s filename _ Hr Hn) as (data2 & Hn2 & ->).
  destruct (bool_decide (filename ∈ stored_names (kept_db s))) eqn:Hin.
  - apply bool_decide_eq_true in Hin. simpl.
    destruct (save_kept_file_eval w s filename _ Hr Hn) as (data3 & _ & ->).
    rewrite bool_decide_eq_true_2 by done. simpl.
    split; [done|]. split; [done|].
    destruct (write_error (kept_db s)) as [[msg|msg remains]|];
      [by rewrite app_nil_r|by rewrite app_nil_r|].
    split; [by apply count_name_nodup|done].
  - apply bool_decide_eq_false in Hin. simpl.
    split; [done|]. split; [done|].
    unfold after_addition.
    destruct (write_error (kept_db s)) as [[msg|msg remains]|] eqn:Hw.
    + set (s1 := {| fs := fs s; kept_db := kept_db s; trace := _; ticks := _ |}).
      destruct (save_kept_file_eval w s1 filename _ Hr Hn) as (data3 & _ & ->).
      rewrite bool_decide_eq_false_2 by done. simpl.
      unfold after_addition. simpl. rewrite Hw. done.
    + done.
    + set (s1 := {| fs := fs s; kept_db := _; trace := _; ticks := _ |}).
      assert (Hr1 : read_error (kept_db s1) = None) by done.
      assert (Hn1 : store_names (loaded (kept_db s1)) = Some (stored_names (kept_db s) ++ [filename]))
        by done.
      destruct (save_kept_file_eval w s1 filename _ Hr1 Hn1) as (data3 & _ & ->).
      rewrite bool_decide_eq_true_2 by (apply elem_of_app; right; apply list_elem_of_here).
      assert (Hs1 : stored_names (kept_db s1) = stored_names (kept_db s) ++ [filename])
        by (unfold stored_names at 1; simpl; by rewrite Hn2).
      split_and!; try done.
      change (count_name filename (stored_names (kept_db s1)) = 1%nat).
      rewrite Hs1, count_name_app, (count_name_absent _ _ Hin).
      unfold count_name. rewrite filter_cons, decide_True by done. done.
Qed.

(** ** Frame rules for the effects of a session *)

Section frame.
Variable R : state → state → Prop.
Hypothesis HR : frame R.

Lemma respects_ret {A : Type} (a : A) : respects R (ret a).
Proof. intros s. apply (frame_refl R HR). Qed.

Lemma respects_raise {A : Type} (e : exn) : respects R (raise (A := A) e).
Proof. intros s. apply (frame_refl R HR). Qed.

Lemma respects_lift {A : Type} (r : result A) : respects R (lift r).
Proof. intros s. apply (frame_refl R HR). Qed.

Lemma respects_get_fs : respects R get_fs.
Proof. intros s. apply (frame_refl R HR). Qed.

Lemma respects_get_db : respects R get_db.
Proof. intros s. apply (frame_refl R HR). Qed.

Lemma respects_bind {A B : Type} (m : M A) (k : A → M B) :
  respects R m → (∀ a, respects R (k a)) → respects R (bind m k).
Proof.
  intros Hm Hk s. unfold bind. specialize (Hm s).
  destruct (m s) as [[a|e] s1]; simpl in *; [|done].
  eapply (frame_trans R HR); [exact Hm|]. apply Hk.
Qed.

Lemma respects_try_except {A : Type} (m : M A) (caught : exn → bool)
    (handler : exn → M A) :
  respects R m → (∀ e, respects R (handler e)) →
  respects R (try_except m caught handler).
Proof.
  intros Hm Hh s. unfold try_except. specialize (Hm s).
  destruct (m s) as [[a|e] s1]; simpl in *; [done|].
  destruct (caught e); [|done].
  eapply (frame_trans R HR); [exact Hm|]. apply Hh.
Qed.

Lemma respects_for_each {A : Type} (l : list A) (body : A → M unit) :
  (∀ x, respects R (body x)) → respects R (for_each l body).
Proof.
  intros Hb. induction l as [|x l IH]; simpl.
  - apply respects_ret.
  - apply respects_bind; [apply Hb|]. intros _. apply IH.
Qed.

Lemma respects_emit (ev : event) : ev ≠ results_header → respects R (emit ev).
Proof. intros Hev s. by apply (frame_emit R HR). Qed.

Lemma respects_print (line : text) :
  line ≠ [Lit "🗑️  DELETION RESULTS"] → respects R (print line).
Proof. intros Hl. apply respects_emit. unfold results_header. congruence. Qed.


Ltac frame_step :=
  first
    [ apply respects_bind; [|intros ?]
    | apply respects_try_except; [|intros ?]
    | apply respects_for_each; intros ?
    | apply respects_ret
    | apply respects_raise
    | apply respects_lift
    | apply respects_get_fs
    | apply respects_get_db
    | apply respects_print;
      first [ congruence
            | let H := fresh in intros H; vm_compute in H; congruence ]
    | apply respects_emit; unfold results_header; congruence
    | match goal with
      | |- respects _ (if ?b then _ else _) => destruct b
      | |- respects _ (match ?x with _ => _ end) => destruct x
      end ].

Lemma respects_get_downloads_folder (w : world) :
  respects R (get_downloads_folder w).
Proof. unfold get_downloads_folder. repeat frame_step. Qed.

Lemma respects_scan_items (dir : list string) (names : list string) :
  respects R (scan_items dir names).
Proof.
  induction names as [|n names IH]; simpl; [apply respects_ret|].
  unfold scan_item. repeat frame_step. apply IH.
Qed.

Lemma respects_scan_downloads_folder (dir : list string) :
  respects R (scan_downloads_folder dir).
Proof.
  unfold scan_downloads_folder. repeat frame_step. apply respects_scan_items.
Qed.

Lemma respects_read_db : respects R read_db.
Proof. unfold read_db. repeat frame_step. Qed.

Lemma respects_load_kept_files : respects R load_kept_files.
Proof.
  unfold load_kept_files. repeat frame_step; try apply respects_read_db.
Qed.

Lemma respects_get_deletion_suggestions (w : world) (files : list file_info) :
  respects R (get_deletion_suggestions w files).
Proof. unfold get_deletion_suggestions. repeat frame_step. Qed.

Lemma respects_display_item (item : json) : respects R (display_item item).
Proof. unfold display_item. repeat frame_step. Qed.

Lemma respects_display_group (heading : string) (group : list json) :
  heading ≠ "🗑️  DELETION RESULTS"%string →
  respects R (display_group heading group).
Proof.
  intros Hh. unfold display_group. destruct group; [apply respects_ret|].
  apply respects_bind; [apply respects_print; congruence|]. intros _.
  apply respects_for_each. intros x. apply respects_display_item.
Qed.

Lemma respects_display_suggestions (suggestions : json) :
  respects R (display_suggestions suggestions).
Proof.
  unfold display_suggestions.
  repeat first [ apply respects_display_group; discriminate | frame_step ].
Qed.

Lemma respects_checkbox_over (message : string)
    (answer : list choice → option (list json)) (suggestions : json) :
  respects R (checkbox_over message answer suggestions).
Proof. unfold checkbox_over. repeat frame_step. Qed.

(** Effects on the suppression store and readings of the clock. *)
Hypothesis R_store : ∀ s db t,
  R s {| fs := fs s; kept_db := db; trace := trace s; ticks := t |}.

Lemma respects_put_db (db : db_file) : respects R (put_db db).
Proof. intros s. apply R_store. Qed.

Lemma respects_datetime_now (w : world) : respects R (datetime_now w).
Proof. intros s. apply R_store. Qed.

Lemma respects_write_db (data : json) : respects R (write_db data).
Proof. unfold write_db. repeat first [apply respects_put_db | frame_step]. Qed.

Lemma respects_save_kept_file (w : world) (filename : json) :
  respects R (save_kept_file w filename).
Proof.
  unfold save_kept_file.
  repeat first [ apply respects_read_db | apply respects_datetime_now
               | apply respects_write_db | frame_step ].
Qed.

Lemma respects_keep_step (w : world) (suggestions : json) :
  respects R (keep_step w suggestions).
Proof.
  unfold keep_step, mark_files_as_keep.
  repeat first [ apply respects_checkbox_over | apply respects_save_kept_file
               | frame_step ].
Qed.

Lemma respects_deletion_step_declined (w : world) (suggestions : json)
    (dir : list string) :
  answer_confirm w ≠ Some true →
  respects R (deletion_step w suggestions dir).
Proof.
  intros Hc. unfold deletion_step, interactive_file_selection.
  apply respects_bind; [apply respects_checkbox_over|]. intros selected.
  destruct selected; [repeat frame_step|].
  apply respects_bind; [repeat frame_step|]. intros _.
  destruct (answer_confirm w) as [[|]|]; [done| |]; repeat frame_step.
Qed.

Lemma respects_interactive_part_declined (w : world) (suggestions : json)
    (dir : list string) :
  answer_confirm w ≠ Some true →
  respects R (interactive_part w suggestions dir).
Proof.
  intros Hc. unfold interactive_part.
  repeat first [ apply respects_keep_step
               | apply respects_deletion_step_declined; assumption
               | frame_step ].
Qed.

End frame.

(** *** The two frames *)

Lemma nothing_deleted_refl (s : state) : nothing_deleted s s.
Proof. by split. Qed.

Lemma nothing_deleted_trans (s1 s2 s3 : state) :
  nothing_deleted s1 s2 → nothing_deleted s2 s3 → nothing_deleted s1 s3.
Proof. intros [H1 H1'] [H2 H2']. split; intros; auto. Qed.

Lemma nothing_deleted_emit (s : state) (ev : event) :
  ev ≠ results_header →
  nothing_deleted s {| fs := fs s; kept_db := kept_db s;
                       trace := trace s ++ [ev]; ticks := ticks s |}.
Proof.
  intros Hev. split; [done|]. simpl.
  rewrite elem_of_app, elem_of_cons, elem_of_nil. intros [?|[?|[]]]; [done|].
  by subst.
Qed.

Lemma nothing_deleted_frame : frame nothing_deleted.
Proof.
  split; [apply nothing_deleted_refl|apply nothing_deleted_trans
         |apply nothing_deleted_emit].
Qed.

Lemma nothing_deleted_store (s : state) (db : db_file) (t : nat) :
  nothing_deleted s {| fs := fs s; kept_db := db; trace := trace s; ticks := t |}.
Proof. by split. Qed.

Lemma nothing_deleted_write_suggestions (w : world) (output_file : list string)
    (suggestions : json) :
  respects nothing_deleted (write_suggestions w output_file suggestions).
Proof.
  intros s. unfold write_suggestions, raise, put_fs.
  destruct (resolve (fs s) output_file) as [q|]; [|apply nothing_deleted_refl].
  destruct (fs s !! q) as [[st ue|st ue|]|] eqn:Hq; simpl;
    try apply nothing_deleted_refl.
  - split; [|done]. simpl. intros p Hp.
    destruct (decide (q = p)) as [->|Hne];
      [rewrite lookup_insert_eq|rewrite lookup_insert_ne]; done.
  - split; [|done]. simpl. intros p Hp.
    destruct (decide (q = p)) as [->|Hne];
      [rewrite lookup_insert_eq|rewrite lookup_insert_ne]; done.
Qed.

(** C1: when the answer to the confirmation prompt is not "yes" (it is
    "no", or the prompt is cancelled), a session removes no entry of the
    file system and reports no outcome of the deletion executor: the
    executor is not called. *)
Theorem declined_session_deletes_nothing (w : world) (s : state) :
  answer_confirm w ≠ Some true →
  let s' := snd (run_cleanup_session w s) in
  (∀ p, is_Some (fs s !! p) → is_Some (fs s' !! p))
  ∧ (results_header ∈ trace s' → results_header ∈ trace s).
Proof.
  intros Hc. revert s.
  change (respects nothing_deleted (run_cleanup_session w)).
  revert Hc.
  pose proof nothing_deleted_frame as HF.
  pose proof nothing_deleted_store as HS.
  intros Hc. unfold run_cleanup_session.
  apply (respects_bind _ HF); [by apply respects_print|]. intros _.
  apply (respects_bind _ HF); [by apply respects_get_downloads_folder|].
  intros dir.
  apply (respects_bind _ HF); [by apply respects_scan_downloads_folder|].
  intros files. destruct files as [|f files]; [by apply respects_print|].
  repeat (apply (respects_bind _ HF); [by apply respects_print|]; intros _).
  apply (respects_bind _ HF); [by apply respects_load_kept_files|].
  intros kept.
  apply (respects_bind _ HF).
  { destruct kept.
    - apply (respects_bind _ HF); [by apply respects_print|]. intros _.
      by apply respects_ret.
    - repeat (apply (respects_bind _ HF); [by apply respects_print|]; intros _).
      by apply respects_ret. }
  intros remaining.
  apply (respects_bind _ HF); [by apply respects_print|]. intros _.
  apply (respects_bind _ HF); [by apply respects_get_deletion_suggestions|].
  intros suggestions.
  apply (respects_bind _ HF); [by apply respects_display_suggestions|].
  intros _.
  apply (respects_bind _ HF); [apply nothing_deleted_write_suggestions|].
  intros _.
  apply (respects_bind _ HF); [by apply respects_print|]. intros _.
  by apply respects_interactive_part_declined.
Qed.

Lemma declined_session_witness :
  let w := example_world (Some false) example_reply in
  let s' := snd (run_cleanup_session w example_state) in
  answer_confirm w ≠ Some true
  ∧ is_Some (fs s' !! (downloads_dir ++ ["a.dmg"%string]))
  ∧ (results_header ∈ trace s' → results_header ∈ trace example_state).
Proof.
  cbv zeta.
  assert (Hc : answer_confirm (example_world (Some false) example_reply) ≠ Some true)
    by (simpl; discriminate).
  split; [exact Hc|].
  destruct (declined_session_deletes_nothing _ example_state Hc) as [Hfs Htr].
  split; [|exact Htr].
  apply Hfs. vm_compute. eexists. reflexivity.
Defined.

Lemma save_kept_file_idempotent_witness :
  let w := example_world None example_reply in
  store_ok (kept_db example_state) = true
  ∧ save_kept_file w (JStr "report.pdf") example_state = (Ok tt, example_state)
  ∧ count_name "a.dmg"
      (stored_names (kept_db (snd (save_kept_file w (JStr "a.dmg") example_state))))
    = 1%nat.
Proof.
  cbv zeta.
  assert (Hok : store_ok (kept_db example_state) = true) by (vm_compute; reflexivity).
  split; [exact Hok|]. split.
  - apply (proj1 (save_kept_file_idempotent (example_world None example_reply)
                    example_state "report.pdf" Hok)).
    vm_compute. apply list_elem_of_here.
  - exact (proj1 (proj2 (proj2 (save_kept_file_idempotent
             (example_world None example_reply) example_state "a.dmg" Hok)))).
Defined.

(** ** The advisory client *)

Lemma untouched_frame : frame untouched.
Proof.
  split.
  - by split.
  - intros s1 s2 s3 [H1 H1'] [H2 H2']. split; congruence.
  - by split.
Qed.

Lemma respects_bind_raises (R : state → state → Prop) {A B : Type}
    (m : M A) (k : A → M B) :
  respects R m → (∀ s, ∃ e, fst (m s) = Raise e) → respects R (bind m k).
Proof.
  intros Hm Hr s. unfold bind. specialize (Hm s). destruct (Hr s) as [e He].
  destruct (m s) as [[a|e'] s1]; simpl in *; done.
Qed.

(** C2, as stated, fails: a payload that decodes to an object without the
    key [suggestions] raises nothing; the client returns it, and the
    session goes on with an empty batch as the default, reports a clean
    folder and writes the suggestions file.  A payload whose suggestion
    has no [filename] is returned by the client as well; the session
    raises [KeyError] later, at the delete prompt, after the suggestions
    file is written. *)
Lemma missing_suggestions_key_accepted :
  let r := run_cleanup_session empty_payload_world example_state in
  let r' := run_cleanup_session nameless_payload_world example_state in
  reply empty_payload_world = Api_returns "{}" (Decoded (JObj []))
  ∧ Py.contains (JObj []) "suggestions" = Ok false
  ∧ fst (get_deletion_suggestions empty_payload_world [] example_state) = Ok (JObj [])
  ∧ fst r = Ok tt
  ∧ trace (snd r) !! 15%nat
    = Some (Printed [Lit newline;
         Lit "✅ No files suggested for deletion. Your Downloads folder looks clean!"])
  ∧ fs example_state !! (downloads_dir ++ ["cleanup_suggestions.json"%string]) = None
  ∧ is_Some (fs (snd r) !! (downloads_dir ++ ["cleanup_suggestions.json"%string]))
  ∧ fst (get_deletion_suggestions nameless_payload_world [] example_state)
    = Ok nameless_payload
  ∧ fst r' = Raise (KeyError "filename")
  ∧ last (trace (snd r')) = Some (Printed [Lit newline; Lit rule70])
  ∧ is_Some (fs (snd r') !! (downloads_dir ++ ["cleanup_suggestions.json"%string])).
Proof.
  cbv zeta. split; [reflexivity|]. split; [reflexivity|].
  split; [reflexivity|]. split; [by vm_compute|]. split; [by vm_compute|].
  split; [by vm_compute|]. split; [vm_compute; eexists; reflexivity|].
  split; [reflexivity|]. split; [by vm_compute|]. split; [by vm_compute|].
  vm_compute. eexists. reflexivity.
Qed.

Lemma lookup_get_default (fields : list (string * json)) (k : string) (dflt : json) :
  Py.lookup fields k = None → Py.get (JObj fields) k dflt = Ok dflt.
Proof.
  intros H. unfold Py.get. by rewrite H.
Qed.

(** C2, amended: the client checks the payload with [json.loads] and
    with nothing else.  When [json.loads] rejects the payload, the client
    prints the error and the raw payload and raises the decode error,
    after one request and without another; whatever follows the call is
    not run, and a session whose payload is rejected leaves the file
    system and the suppression store as they were.  When [json.loads]
    accepts the payload, the client sends the one request, prints nothing
    and returns the decoded value as it is, whatever its shape; what
    follows the call runs on that value; and on an object without the key
    [suggestions] the interactive part of the session does nothing. *)
Theorem get_deletion_suggestions_payload
    (w : world) (files : list file_info) (s : state) (raw : string) (d : decoding) :
  reply w = Api_returns raw d →
  let r := get_deletion_suggestions w files s in
  match d with
  | Undecodable msg =>
      fst r = Raise (JSONDecodeError msg)
      ∧ trace (snd r)
        = trace s ++ [Sent_request (user_prompt files);
                      Printed [Lit "Error: Failed to parse JSON response: "; Lit msg];
                      Printed [Lit "Raw response: "; Lit raw]]
      ∧ untouched s (snd r)
      ∧ (∀ k : json → M unit,
           (suggestions <- get_deletion_suggestions w files ;; k suggestions) s
           = (Raise (JSONDecodeError msg), snd r))
      ∧ untouched s (snd (run_cleanup_session w s))
  | Decoded v =>
      r = (Ok v, {| fs := fs s; kept_db := kept_db s;
                    trace := trace s ++ [Sent_request (user_prompt files)];
                    ticks := ticks s |})
      ∧ (∀ k : json → M unit,
           (suggestions <- get_deletion_suggestions w files ;; k suggestions) s
           = k v (snd r))
      ∧ (∀ (fields : list (string * json)) (dir : list string) (s0 : state),
           v = JObj fields → Py.lookup fields "suggestions" = None →
           interactive_part w v dir s0 = (Ok tt, s0))
  end.
Proof.
  intros Hw. cbv zeta. destruct d as [v|msg].
  - assert (Hr : get_deletion_suggestions w files s
      = (Ok v, {| fs := fs s; kept_db := kept_db s;
                  trace := trace s ++ [Sent_request (user_prompt files)];
                  ticks := ticks s |})).
    { unfold get_deletion_suggestions. rewrite Hw.
      unfold bind, emit, ret. by destruct s. }
    split; [exact Hr|]. split.
    + intros k. unfold bind. by rewrite Hr.
    + intros fields dir s0 -> Hl. unfold interactive_part.
      rewrite (lookup_get_default _ _ _ Hl). unfold bind, lift, ret. simpl.
      by destruct s0.
  - assert (Hr : ∀ fl s0, get_deletion_suggestions w fl s0
      = (Raise (JSONDecodeError msg),
         {| fs := fs s0; kept_db := kept_db s0;
            trace := trace s0 ++ [Sent_request (user_prompt fl);
                       Printed [Lit "Error: Failed to parse JSON response: "; Lit msg];
                       Printed [Lit "Raw response: "; Lit raw]];
            ticks := ticks s0 |})).
    { intros fl s0. unfold get_deletion_suggestions. rewrite Hw.
      unfold bind, emit, print, emit, raise. simpl. by rewrite <- !app_assoc. }
    rewrite Hr. simpl. split; [done|]. split; [done|]. split; [by split|].
    split; [intros k; unfold bind; by rewrite Hr|].
    revert s. change (respects untouched (run_cleanup_session w)).
    pose proof untouched_frame as HF. unfold run_cleanup_session.
    apply (respects_bind _ HF); [by apply respects_print|]. intros _.
    apply (respects_bind _ HF); [by apply respects_get_downloads_folder|].
    intros dir.
    apply (respects_bind _ HF); [by apply respects_scan_downloads_folder|].
    intros fl. destruct fl as [|f fl]; [by apply respects_print|].
    repeat (apply (respects_bind _ HF); [by apply respects_print|]; intros _).
    apply (respects_bind _ HF); [by apply respects_load_kept_files|].
    intros kept.
    apply (respects_bind _ HF).
    { destruct kept.
      - apply (respects_bind _ HF); [by apply respects_print|]. intros _.
        by apply respects_ret.
      - repeat (apply (respects_bind _ HF); [by apply respects_print|]; intros _).
        by apply respects_ret. }
    intros remaining.
    apply (respects_bind _ HF); [by apply respects_print|]. intros _.
    apply respects_bind_raises; [by apply respects_get_deletion_suggestions|].
    intros s0. rewrite Hr. by eexists.
Qed.

Lemma get_deletion_suggestions_payload_witness :
  let w := example_world None
             (Api_returns "oops" (Undecodable "Expecting value: line 1 column 1 (char 0)")) in
  reply w = Api_returns "oops" (Undecodable "Expecting value: line 1 column 1 (char 0)")
  ∧ fst (get_deletion_suggestions w [] example_state)
    = Raise (JSONDecodeError "Expecting value: line 1 column 1 (char 0)")
  ∧ reply empty_payload_world = Api_returns "{}" (Decoded (JObj []))
  ∧ fst (get_deletion_suggestions empty_payload_world [] example_state) = Ok (JObj [])
  ∧ interactive_part empty_payload_world (JObj []) downloads_dir example_state
    = (Ok tt, example_state).
Proof.
  cbv zeta. split; [reflexivity|]. split.
  { exact (proj1 (get_deletion_suggestions_payload
                    (example_world None
                       (Api_returns "oops"
                          (Undecodable "Expecting value: line 1 column 1 (char 0)")))
                    [] example_state "oops"
                    (Undecodable "Expecting value: line 1 column 1 (char 0)") eq_refl)). }
  split; [reflexivity|]. split.
  { exact (f_equal fst (proj1 (get_deletion_suggestions_payload empty_payload_world
                    [] example_state "{}" (Decoded (JObj [])) eq_refl))). }
  exact (proj2 (proj2 (get_deletion_suggestions_payload empty_payload_world
                    [] example_state "{}" (Decoded (JObj [])) eq_refl))
           [] downloads_dir example_state eq_refl eq_refl).
Defined.

(** ** Suggestions of unknown confidence *)

(** C6 at a batch of three suggestions, of confidence "high", "unknown"
    and none: the checkbox prompts offer all three, the last two under
    the default marker, but [display_suggestions] announces three files
    and prints the first only; the other two are in no group and are
    left out without a word. *)
Theorem display_suggestions_drops_unknown_confidence :
  let shown := display_suggestions example_batch example_state in
  fst shown = Ok tt
  ∧ trace (snd shown) !! 7%nat
    = Some (Printed [Lit newline; Lit "🗑️  Suggested for deletion ("; IntStr 3;
                     Lit " files):"; Lit newline])
  ∧ printed_filename "a.dmg" (trace (snd shown)) = true
  ∧ printed_filename "c.zip" (trace (snd shown)) = false
  ∧ printed_filename "b.tmp" (trace (snd shown)) = false
  ∧ map_result make_choice example_items
    = Ok [ {| title := [Lit "🔴"; Lit " "; Lit "a.dmg"; Lit " ("; Fixed2 3;
                        Lit " MB) - "; Lit "Old installer"];
              value := JStr "a.dmg" |};
           {| title := [Lit "⚪"; Lit " "; Lit "c.zip"; Lit " ("; Fixed2 1;
                        Lit " MB) - "; Lit "Looks like a duplicate"];
              value := JStr "c.zip" |};
           {| title := [Lit "⚪"; Lit " "; Lit "b.tmp"; Lit " ("; Fixed2 0;
                        Lit " MB) - "; Lit "Temporary file"];
              value := JStr "b.tmp" |} ].
Proof.
  cbv zeta. split_and!; by vm_compute.
Qed.

(** ** The order of the deletion step and the keep step *)

Lemma extends_frame : frame extends.
Proof.
  split.
  - intros s. exists []. by rewrite app_nil_r.
  - intros s1 s2 s3 [e1 H1] [e2 H2]. exists (e1 ++ e2).
    by rewrite H2, H1, app_assoc.
  - intros s ev _. by exists [ev].
Qed.

Lemma extends_store (s : state) (db : db_file) (t : nat) :
  extends s {| fs := fs s; kept_db := db; trace := trace s; ticks := t |}.
Proof. exists []. by rewrite app_nil_r. Qed.

Lemma same_files_frame : frame same_files.
Proof. split; unfold same_files; [done| |done]. intros; simpl; congruence. Qed.

Lemma same_files_store (s : state) (db : db_file) (t : nat) :
  same_files s {| fs := fs s; kept_db := db; trace := trace s; ticks := t |}.
Proof. done. Qed.

Lemma returns_ret {A : Type} (a : A) : returns (ret a).
Proof. intros s. by exists a. Qed.

Lemma returns_print (line : text) : returns (print line).
Proof. intros s. by exists tt. Qed.

Lemma returns_bind {A B : Type} (m : M A) (k : A → M B) :
  returns m → (∀ a, returns (k a)) → returns (bind m k).
Proof.
  intros Hm Hk s. unfold bind. destruct (Hm s) as [a Ha].
  destruct (m s) as [[a'|e] s1]; simpl in Ha; [|done]. apply Hk.
Qed.

Lemma returns_for_each {A : Type} (l : list A) (body : A → M unit) :
  (∀ x, returns (body x)) → returns (for_each l body).
Proof.
  intros Hb. induction l as [|x l IH]; simpl; [apply returns_ret|].
  apply returns_bind; [apply Hb|]. intros _. apply IH.
Qed.

Lemma returns_print_deletion_results (result0 : deletion_result) :
  returns (print_deletion_results result0).
Proof.
  unfold print_deletion_results.
  repeat (apply returns_bind; [apply returns_print|]; intros _).
  apply returns_bind; [|intros _; apply returns_print].
  destruct (failed result0); [apply returns_ret|].
  apply returns_bind; [apply returns_print|]. intros _.
  apply returns_for_each. intros x. apply returns_print.
Qed.

Lemma returns_call_delete_selected_files (selected : list json) (dir : list string) :
  snd (leading_filenames selected) = true →
  returns (call_delete_selected_files selected dir).
Proof.
  intros Hs s. unfold call_delete_selected_files, bind, get_fs, put_fs. simpl.
  destruct (leading_filenames selected) as [names complete]. simpl in Hs. subst.
  destruct (delete_selected_files names dir (fs s)) as [r fs']. simpl.
  by eexists.
Qed.

Lemma checkbox_over_eval (message : string)
    (answer : list choice → option (list json)) (suggestions : json)
    (items : list json) (choices : list choice) (s : state) :
  Py.get suggestions "suggestions" (JArr []) = Ok (JArr items) →
  items ≠ [] →
  map_result make_choice items = Ok choices →
  checkbox_over message answer suggestions s
  = (Ok (default [] (answer choices)),
     {| fs := fs s; kept_db := kept_db s;
        trace := trace s ++ [Asked_checkbox message choices];
        ticks := ticks s |}).
Proof.
  intros Hg Hne Hc.
  assert (Ht : Py.truthy (JArr items) = true) by (by destruct items).
  unfold checkbox_over, bind, lift. rewrite Hg, Ht. simpl negb. cbv iota.
  unfold Py.iter. rewrite Hc. done.
Qed.

Lemma bind_ok {A B : Type} (m : M A) (k : A → M B) (s s1 : state) (a : A) :
  m s = (Ok a, s1) → bind m k s = k a s1.
Proof. intros H. unfold bind. by rewrite H. Qed.

Lemma extends_print (line : text) : respects extends (print line).
Proof. intros s. by exists [Printed line]. Qed.

Lemma extends_print_deletion_results (result0 : deletion_result) :
  respects extends (print_deletion_results result0).
Proof.
  pose proof extends_frame as HF. unfold print_deletion_results.
  repeat (apply (respects_bind _ HF); [apply extends_print|]; intros _).
  apply (respects_bind _ HF); [|intros _; apply extends_print].
  destruct (failed result0); [by apply respects_ret|].
  apply (respects_bind _ HF); [apply extends_print|]. intros _.
  apply (respects_for_each _ HF). intros x. apply extends_print.
Qed.

Lemma extends_call_delete_selected_files (selected : list json) (dir : list string) :
  respects extends (call_delete_selected_files selected dir).
Proof.
  intros s. unfold call_delete_selected_files, bind, get_fs, put_fs. simpl.
  destruct (leading_filenames selected) as [names complete].
  destruct (delete_selected_files names dir (fs s)) as [r fs'].
  exists []. destruct complete; simpl; by rewrite app_nil_r.
Qed.

(** After the selection: confirmation, deletion and report. *)
Lemma deletion_step_eval (w : world) (suggestions : json) (dir : list string)
    (items : list json) (choices : list choice) (s : state) :
  Py.get suggestions "suggestions" (JArr []) = Ok (JArr items) →
  items ≠ [] →
  map_result make_choice items = Ok choices →
  snd (leading_filenames (default [] (answer_delete w choices))) = true →
  fst (deletion_step w suggestions dir s) = Ok tt
  ∧ ∃ evs, trace (snd (deletion_step w suggestions dir s))
           = trace s ++ Asked_checkbox delete_message choices :: evs.
Proof.
  intros Hg Hne Hc Hsel. pose proof extends_frame as HF.
  unfold deletion_step, interactive_file_selection.
  rewrite !(bind_ok _ _ _ _ _ (checkbox_over_eval _ _ _ items choices s Hg Hne Hc)).
  set (s1 := {| fs := fs s; kept_db := _; trace := _; ticks := _ |}).
  set (selected := default [] (answer_delete w choices)) in *.
  set (rest := match selected with [] => _ | _ => _ end).
  assert (Hret : returns rest).
  { unfold rest. destruct selected as [|v selected]; [apply returns_print|].
    apply returns_bind; [intros s0; by exists tt|]. intros _.
    destruct (answer_confirm w) as [[|]|]; try apply returns_print.
    apply returns_bind; [by apply returns_call_delete_selected_files|].
    intros r. apply returns_print_deletion_results. }
  assert (Hext : respects extends rest).
  { unfold rest. destruct selected as [|v selected]; [apply extends_print|].
    apply (respects_bind _ HF); [intros s0; by eexists [_]|]. intros _.
    destruct (answer_confirm w) as [[|]|]; try apply extends_print.
    apply (respects_bind _ HF); [apply extends_call_delete_selected_files|].
    intros r. apply extends_print_deletion_results. }
  destruct (Hret s1) as [[] Hok]. destruct (Hext s1) as [evs Hevs].
  split; [done|]. exists evs. rewrite Hevs. unfold s1. simpl.
  by rewrite <- app_assoc.
Qed.

(** The keep step: the prompt, then the write-back. *)
Lemma keep_step_eval (w : world) (suggestions : json)
    (items : list json) (choices : list choice) (s : state) :
  Py.get suggestions "suggestions" (JArr []) = Ok (JArr items) →
  items ≠ [] →
  map_result make_choice items = Ok choices →
  fs (snd (keep_step w suggestions s)) = fs s
  ∧ ∃ evs, trace (snd (keep_step w suggestions s))
           = trace s ++ Asked_checkbox keep_message choices :: evs.
Proof.
  intros Hg Hne Hc.
  unfold keep_step, mark_files_as_keep.
  rewrite !(bind_ok _ _ _ _ _ (checkbox_over_eval _ _ _ items choices s Hg Hne Hc)).
  set (s1 := {| fs := fs s; kept_db := _; trace := _; ticks := _ |}).
  set (rest := match default [] (answer_keep w choices) with [] => _ | _ => _ end).
  assert (Hext : respects extends rest).
  { unfold rest. destruct (default [] (answer_keep w choices)).
    - apply respects_ret, extends_frame.
    - apply (respects_bind _ extends_frame).
      + apply (respects_for_each _ extends_frame). intros x.
        apply (respects_save_kept_file _ extends_frame extends_store).
      + intros _. apply extends_print. }
  assert (Hfs : respects same_files rest).
  { unfold rest. destruct (default [] (answer_keep w choices)).
    - apply respects_ret, same_files_frame.
    - apply (respects_bind _ same_files_frame).
      + apply (respects_for_each _ same_files_frame). intros x.
        apply (respects_save_kept_file _ same_files_frame same_files_store).
      + intros _. by apply (respects_print _ same_files_frame). }
  destruct (Hext s1) as [evs Hevs]. split.
  - apply (Hfs s1).
  - exists evs. rewrite Hevs. unfold s1. simpl. by rewrite <- app_assoc.
Qed.

(** C9: when the batch has suggestions (and choices can be made of them,
    and what the operator selects for deletion are filenames), the
    deletion step ends without raising whatever its outcome, the keep
    step runs on the state it leaves, and the keep prompt comes after all
    events of the deletion step, over the same choices as the delete
    prompt: those of the whole batch, whatever has been deleted.  The
    keep step checks nothing against the deletion: in the example session
    the operator deletes "a.dmg" and then marks it as keep; the file is
    gone and the store holds its name. *)
Theorem keep_step_follows_deletion_step
    (w : world) (suggestions : json) (dir : list string) (s : state)
    (items : list json) (choices : list choice) :
  Py.get suggestions "suggestions" (JArr []) = Ok (JArr items) →
  items ≠ [] →
  map_result make_choice items = Ok choices →
  snd (leading_filenames (default [] (answer_delete w choices))) = true →
  let s1 := snd (print [Lit newline; Lit rule70] s) in
  let del := deletion_step w suggestions dir s1 in
  let r := interactive_part w suggestions dir s in
  fst del = Ok tt
  ∧ (∃ evs, trace (snd del)
            = trace s1 ++ Asked_checkbox delete_message choices :: evs)
  ∧ snd r = snd (keep_step w suggestions (snd del))
  ∧ (∃ evs, trace (snd r)
            = trace (snd del) ++ Asked_checkbox keep_message choices :: evs)
  ∧ fs (snd r) = fs (snd del)
  ∧ (let s' := snd (run_cleanup_session (example_world (Some true) example_reply)
                                        example_state) in
     is_Some (fs example_state !! (downloads_dir ++ ["a.dmg"%string]))
     ∧ fs s' !! (downloads_dir ++ ["a.dmg"%string]) = None
     ∧ stored_names (kept_db example_state) = ["report.pdf"%string]
     ∧ stored_names (kept_db s') = ["report.pdf"; "a.dmg"]%string).
Proof.
  intros Hg Hne Hc Hsel. cbv zeta.
  set (s1 := snd (print [Lit newline; Lit rule70] s)).
  destruct (deletion_step_eval w suggestions dir items choices s1 Hg Hne Hc Hsel)
    as [Hok Hdel].
  assert (Hr : snd (interactive_part w suggestions dir s)
               = snd (keep_step w suggestions (snd (deletion_step w suggestions dir s1)))).
  { assert (Ht : Py.truthy (JArr items) = true) by (by destruct items).
    unfold interactive_part. unfold bind at 1, lift at 1. rewrite Hg, Ht.
    unfold bind at 1. fold s1.
    change (print [Lit newline; Lit rule70] s) with (Ok tt, s1).
    cbv iota beta. unfold bind at 1.
    destruct (deletion_step w suggestions dir s1) as [[[]|e] s2]; [done|].
    simpl in Hok. discriminate Hok. }
  destruct (keep_step_eval w suggestions items choices
              (snd (deletion_step w suggestions dir s1)) Hg Hne Hc) as [Hfs Hkeep].
  split; [done|]. split; [done|]. split; [done|].
  rewrite Hr. split; [done|]. split; [done|].
  split; [by vm_compute; eexists|]. split; [by vm_compute|].
  split; by vm_compute.
Qed.

Lemma keep_step_follows_deletion_step_witness :
  let w := example_world (Some true) example_reply in
  let s1 := snd (print [Lit newline; Lit rule70] example_state) in
  Py.get example_batch "suggestions" (JArr []) = Ok (JArr example_items)
  ∧ example_items ≠ []
  ∧ snd (leading_filenames (default [] (answer_delete w
           [ {| title := [Lit "🔴"; Lit " "; Lit "a.dmg"; Lit " ("; Fixed2 3;
                          Lit " MB) - "; Lit "Old installer"];
                value := JStr "a.dmg" |};
             {| title := [Lit "⚪"; Lit " "; Lit "c.zip"; Lit " ("; Fixed2 1;
                          Lit " MB) - "; Lit "Looks like a duplicate"];
                value := JStr "c.zip" |};
             {| title := [Lit "⚪"; Lit " "; Lit "b.tmp"; Lit " ("; Fixed2 0;
                          Lit " MB) - "; Lit "Temporary file"];
                value := JStr "b.tmp" |} ]))) = true
  ∧ fst (deletion_step w example_batch downloads_dir s1) = Ok tt.
Proof.
  cbv zeta.
  assert (Hg : Py.get example_batch "suggestions" (JArr []) = Ok (JArr example_items))
    by reflexivity.
  assert (Hne : example_items ≠ []) by (vm_compute; discriminate).
  split; [exact Hg|]. split; [exact Hne|]. split; [reflexivity|].
  refine (proj1 (keep_step_follows_deletion_step
                   (example_world (Some true) example_reply) example_batch
                   downloads_dir example_state example_items _ Hg Hne _ _)).
  - vm_compute. reflexivity.
  - reflexivity.
Defined.

(** * Further properties of the code *)

(** ** Reading the suppression store *)

Lemma fold_set_add_nodup (names : list string) :
  ∀ acc : list string,
    NoDup (acc ++ names) →
    fold_left set_add (map JStr names) (map JStr acc) = map JStr (acc ++ names).
Proof.
  induction names as [|n names IH]; intros acc Hnd; simpl.
  - by rewrite app_nil_r.
  - unfold set_add at 2. rewrite set_contains_strings.
    assert (Hn : n ∉ acc).
    { apply NoDup_app in Hnd as (_ & Hd & _). intros Hin.
      apply (Hd n Hin). apply list_elem_of_here. }
    rewrite bool_decide_eq_false_2 by done.
    replace (map JStr acc ++ [JStr n]) with (map JStr (acc ++ [n]))
      by (by rewrite map_app).
    rewrite IH; rewrite <- app_assoc; done.
Qed.

Lemma string_members_strings (l : list string) :
  string_members (map JStr l) = list_to_set l.
Proof.
  unfold string_members. f_equal.
  induction l as [|x l IH]; [done|]. simpl. f_equal. exact IH.
Qed.

(** A store that is absent, cannot be read or cannot be decoded gives the
    empty set: [load_kept_files] raises nothing, and leaves the file
    system and the store as they are; it prints one warning, none when
    the store is absent. *)
Theorem load_kept_files_degrades (s : state) :
  content (kept_db s) = Missing
  ∨ is_Some (read_error (kept_db s))
  ∨ (∃ msg, content (kept_db s) = Unparseable msg) →
  fst (load_kept_files s) = Ok []
  ∧ untouched s (snd (load_kept_files s))
  ∧ ticks (snd (load_kept_files s)) = ticks s
  ∧ (∃ warning, trace (snd (load_kept_files s))
                = trace s ++ (if db_exists (kept_db s)
                              then [Printed [Lit "Warning: Could not load kept files database: ";
                                             Lit warning]]
                              else [])).
Proof.
  intros H. destruct s as [f0 [c r wr] tr tk]. simpl in H.
  unfold load_kept_files, bind, get_db, try_except, read_db, db_exists, raise,
    ret, print, emit, untouched.
  destruct c as [|msg|data]; destruct r as [e|]; simpl.
  - split_and!; try done. exists EmptyString. by rewrite app_nil_r.
  - split_and!; try done. exists EmptyString. by rewrite app_nil_r.
  - split_and!; try done. by eexists.
  - split_and!; try done. by eexists.
  - split_and!; try done. by eexists.
  - destruct H as [H|[[? H]|[msg H]]]; done.
Qed.

Lemma load_kept_files_degrades_witness :
  (content (kept_db undecodable_state) = Missing
   ∨ is_Some (read_error (kept_db undecodable_state))
   ∨ (∃ msg, content (kept_db undecodable_state) = Unparseable msg))
  ∧ fst (load_kept_files undecodable_state) = Ok [].
Proof.
  assert (Hh : content (kept_db undecodable_state) = Missing
               ∨ is_Some (read_error (kept_db undecodable_state))
               ∨ (∃ msg, content (kept_db undecodable_state) = Unparseable msg))
    by (right; right; by eexists).
  split; [exact Hh|].
  exact (proj1 (load_kept_files_degrades undecodable_state Hh)).
Defined.

Lemma load_kept_files_names (s : state) (data : json) :
  store_ok (kept_db s) = true →
  content (kept_db s) = Content data →
  load_kept_files s = (Ok (map JStr (stored_names (kept_db s))), s).
Proof.
  intros Hok Hc.
  destruct (store_ok_names _ Hok) as (Hr & Hn & Hnd).
  pose proof Hn as (d & items & md & Hd & Hk & Hmd & Hm)%store_names_inv.
  unfold loaded in Hd. rewrite Hc in Hd. subst data.
  pose proof (fold_set_add_nodup (stored_names (kept_db s)) [] Hnd) as Hfold.
  pose proof (map_result_entries items _ Hm) as Hitems.
  set (names := stored_names (kept_db s)) in *. clearbody names.
  destruct s as [f0 [c r wr] tr tk]. simpl in Hc, Hr. subst c r.
  unfold load_kept_files, bind, get_db, try_except, read_db, db_exists, lift,
    ret, filename_set.
  simpl in Hfold. simpl. rewrite Hk. simpl. rewrite Hitems, Hfold. done.
Qed.

(** On a store of the documented shape, [load_kept_files] returns the
    filenames that the store holds, each once and in their order, and
    changes nothing. *)
Theorem load_kept_files_stored (s : state) (data : json) :
  store_ok (kept_db s) = true →
  content (kept_db s) = Content data →
  load_kept_files s = (Ok (map JStr (stored_names (kept_db s))), s)
  ∧ string_members (map JStr (stored_names (kept_db s)))
    = list_to_set (stored_names (kept_db s)).
Proof.
  intros Hok Hc. split; [by eapply load_kept_files_names|].
  apply string_members_strings.
Qed.

Lemma load_kept_files_stored_witness :
  store_ok (kept_db example_state) = true
  ∧ content (kept_db example_state) = Content example_store
  ∧ load_kept_files example_state = (Ok [JStr "report.pdf"], example_state).
Proof.
  assert (Hok : store_ok (kept_db example_state) = true) by (vm_compute; reflexivity).
  split; [exact Hok|]. split; [reflexivity|].
  exact (proj1 (load_kept_files_stored example_state example_store Hok eq_refl)).
Defined.

(** ** Writing, then reading, then filtering *)

Lemma filter_kept_files_excludes (files : list file_info) (kept : gset string)
    (filename : string) :
  filename ∈ kept →
  Forall (λ r, name r ≠ filename) (filter_kept_files files kept).
Proof.
  intros Hin. apply Forall_forall. intros r Hr.
  rewrite filter_kept_files_filter in Hr.
  apply list_elem_of_filter in Hr as [Hn _].
  intros Heq. apply Hn. by rewrite Heq.
Qed.

(** A filename that was added to a store that can be read and written,
    and that is absent, not decodable or of the documented shape, is in
    the set that the next [load_kept_files] returns, and
    [filter_kept_files] with that set leaves no record of that name. *)
Theorem save_then_load_suppresses (w : world) (s : state) (filename : string) :
  store_ok (kept_db s) = true →
  write_error (kept_db s) = None →
  let s1 := snd (save_kept_file w (JStr filename) s) in
  ∃ members,
    fst (load_kept_files s1) = Ok members
    ∧ filename ∈ string_members members
    ∧ ∀ files, Forall (λ r, name r ≠ filename)
                      (filter_kept_files files (string_members members)).
Proof.
  intros Hok Hw. cbv zeta.
  destruct (store_ok_names _ Hok) as (Hr & Hn & Hnd).
  destruct (save_kept_file_eval w s filename _ Hr Hn) as (data2 & Hn2 & ->).
  assert (Hgoal : ∀ s1 data, store_ok (kept_db s1) = true →
            content (kept_db s1) = Content data →
            filename ∈ stored_names (kept_db s1) →
            ∃ members, fst (load_kept_files s1) = Ok members
              ∧ filename ∈ string_members members
              ∧ ∀ files, Forall (λ r, name r ≠ filename)
                           (filter_kept_files files (string_members members))).
  { intros s1 data Hok1 Hc1 Hin.
    pose proof (load_kept_files_names s1 data Hok1 Hc1) as Hl.
    pose proof (string_members_strings (stored_names (kept_db s1))) as Hm.
    exists (map JStr (stored_names (kept_db s1))). rewrite Hl.
    assert (Hmem : filename ∈ string_members (map JStr (stored_names (kept_db s1))))
      by (rewrite Hm; by apply elem_of_list_to_set).
    split; [done|]. split; [done|].
    intros files. by apply filter_kept_files_excludes. }
  destruct (bool_decide (filename ∈ stored_names (kept_db s))) eqn:Hin; simpl.
  - apply bool_decide_eq_true in Hin.
    destruct (content (kept_db s)) as [|msg|data] eqn:Hc.
    + unfold stored_names in Hin. rewrite Hc in Hin. by apply elem_of_nil in Hin.
    + unfold stored_names in Hin. rewrite Hc in Hin. by apply elem_of_nil in Hin.
    + by apply (Hgoal s data).
  - apply bool_decide_eq_false in Hin.
    unfold after_addition. rewrite Hw.
    set (s1 := {| fs := fs s; kept_db := _; trace := _; ticks := _ |}).
    assert (Hs1 : stored_names (kept_db s1) = stored_names (kept_db s) ++ [filename])
      by (unfold stored_names at 1; simpl; by rewrite Hn2).
    apply (Hgoal s1 data2); [|done|].
    + unfold store_ok. simpl. rewrite Hr. unfold store_shape. rewrite Hn2.
      apply bool_decide_eq_true. apply NoDup_app. split; [done|].
      split; [|apply NoDup_singleton].
      intros x Hx Hx'. apply list_elem_of_singleton in Hx'. by subst.
    + rewrite Hs1. apply elem_of_app. right. apply list_elem_of_here.
Qed.

Lemma save_then_load_suppresses_witness :
  let w := example_world None example_reply in
  store_ok (kept_db example_state) = true
  ∧ write_error (kept_db example_state) = None
  ∧ ∃ members,
      fst (load_kept_files (snd (save_kept_file w (JStr "a.dmg") example_state)))
      = Ok members
      ∧ "a.dmg"%string ∈ string_members members.
Proof.
  cbv zeta.
  assert (Hok : store_ok (kept_db example_state) = true) by (vm_compute; reflexivity).
  split; [exact Hok|]. split; [reflexivity|].
  destruct (save_then_load_suppresses (example_world None example_reply)
              example_state "a.dmg" Hok eq_refl) as (members & Hl & Hin & _).
  exists members. split; [exact Hl|exact Hin].
Defined.

(** ** Stores that [save_kept_file] cannot use *)

(** When the store decodes to an object without the key [kept_files], or
    with entries but without the key [metadata], adding a filename that
    it does not hold raises [KeyError] for that key; nothing is written
    and nothing is printed. *)
Theorem save_kept_file_missing_key
    (w : world) (s : state) (filename : string) (d : list (string * json)) :
  read_error (kept_db s) = None →
  content (kept_db s) = Content (JObj d) →
  Py.lookup d "kept_files" = None
  ∨ (∃ items names, Py.lookup d "kept_files" = Some (JArr items)
       ∧ mapM entry_name items = Some names
       ∧ (filename ∉ names)
       ∧ Py.lookup d "metadata" = None) →
  let r := save_kept_file w (JStr filename) s in
  (∃ key, fst r = Raise (KeyError key)
          ∧ (key = "kept_files"%string ∨ key = "metadata"%string)
          ∧ Py.lookup d key = None)
  ∧ untouched s (snd r)
  ∧ trace (snd r) = trace s.
Proof.
  intros Hr Hc Hd. cbv zeta.
  assert (∃ key t,
            save_kept_file w (JStr filename) s
            = (Raise (KeyError key),
               {| fs := fs s; kept_db := kept_db s; trace := trace s; ticks := t |})
            ∧ (key = "kept_files"%string ∨ key = "metadata"%string)
            ∧ Py.lookup d key = None) as (key & t & Heq & Hkey & Hnone).
  { unfold save_kept_file. unfold bind at 1. unfold get_db at 1.
    rewrite (bind_ok _ _ _ _ _ (read_phase s Hr)).
    unfold loaded. rewrite Hc.
    destruct Hd as [Hk|(items & names & Hk & Hn & Hin & Hm)].
    - exists "kept_files"%string, (S (ticks s)).
      unfold bind, lift, datetime_now, append_at. simpl. rewrite Hk. simpl.
      rewrite ?Hk. split_and!; try done. by left.
    - destruct (filename_set_contains items names filename Hn)
        as (members & Hfs & Hcn).
      rewrite bool_decide_eq_false_2 in Hcn by done.
      exists "metadata"%string, (S (S (ticks s))).
      unfold bind, lift, datetime_now, append_at, set_at. simpl.
      rewrite Hk. simpl. rewrite Hfs. simpl. rewrite Hcn. simpl. rewrite ?Hk. simpl.
      rewrite lookup_dict_set_ne by done. rewrite Hm.
      split_and!; try done. by right. }
  rewrite Heq. simpl. split; [by exists key|]. by split.
Qed.

Lemma save_kept_file_missing_key_witness :
  read_error (kept_db keyless_state) = None
  ∧ content (kept_db keyless_state) = Content (JObj [])
  ∧ kept_db (snd (save_kept_file (example_world None example_reply)
                    (JStr "a.dmg") keyless_state)) = kept_db keyless_state.
Proof.
  split; [reflexivity|]. split; [reflexivity|].
  refine (proj2 (proj1 (proj2 (save_kept_file_missing_key
            (example_world None example_reply) keyless_state "a.dmg" []
            eq_refl eq_refl _)))).
  left. reflexivity.
Defined.

(** When the store exists but cannot be read or decoded and can be
    written, adding a filename replaces whatever the file held by a store
    with that one entry; nothing is printed about what was lost. *)
Theorem save_kept_file_resets_unusable_store
    (w : world) (s : state) (filename : string) :
  db_exists (kept_db s) = true →
  is_Some (read_error (kept_db s))
  ∨ (∃ msg, content (kept_db s) = Unparseable msg) →
  write_error (kept_db s) = None →
  let r := save_kept_file w (JStr filename) s in
  fst r = Ok tt
  ∧ content (kept_db (snd r))
    = Content (fresh_store filename (now w (ticks s)) (now w (S (ticks s))))
  ∧ stored_names (kept_db (snd r)) = [filename]
  ∧ trace (snd r) = trace s
  ∧ fs (snd r) = fs s.
Proof.
  intros He Hu Hw. cbv zeta.
  destruct s as [f0 [c r wr] tr tk]. simpl in He, Hu, Hw. subst wr.
  unfold save_kept_file, bind, get_db, try_except, read_db, lift, datetime_now,
    write_db, put_db, raise, ret, fresh_store.
  destruct r as [e|]; simpl.
  - destruct c; [done| |]; simpl; done.
  - destruct Hu as [[? Hu]|[msg ->]]; [done|]. simpl. done.
Qed.

Lemma save_kept_file_resets_unusable_store_witness :
  db_exists (kept_db undecodable_state) = true
  ∧ stored_names (kept_db (snd (save_kept_file (example_world None example_reply)
                                  (JStr "a.dmg") undecodable_state)))
    = ["a.dmg"%string].
Proof.
  split; [reflexivity|].
  refine (proj1 (proj2 (proj2 (save_kept_file_resets_unusable_store
            (example_world None example_reply) undecodable_state "a.dmg"
            eq_refl _ eq_refl)))).
  right. by eexists.
Defined.

(** ** What the deletion executor leaves alone *)

Lemma unlink_removes (current fs' : filesystem) (p : list string) :
  unlink current p = Ok fs' →
  ∃ q, fs' = delete q current
       ∧ ((∃ st, current !! q = Some (File st None)) ∨ current !! q = Some BrokenLink).
Proof.
  unfold unlink. destruct (resolve current p) as [q|]; [|done].
  destruct (current !! q) as [[st [msg|]|st msg|]|] eqn:Hq; try done.
  - intros [= <-]. exists q. split; [done|]. left. by exists st.
  - intros [= <-]. exists q. split; [done|]. by right.
Qed.

Lemma delete_one_fs (dir : list string) (vars : deletion_vars) (f : string) :
  v_fs (delete_one dir vars f) = v_fs vars
  ∨ ∃ q, v_fs (delete_one dir vars f) = delete q (v_fs vars)
         ∧ ((∃ st, v_fs vars !! q = Some (File st None))
            ∨ v_fs vars !! q = Some BrokenLink).
Proof.
  unfold delete_one. destruct (path_exists (v_fs vars) (joinpath dir f)); [|by left].
  destruct (stat (v_fs vars) (joinpath dir f)); [|by left].
  destruct (unlink (v_fs vars) (joinpath dir f)) as [fs'|e] eqn:Hu; [|by left].
  right. simpl. by apply unlink_removes in Hu.
Qed.

Lemma delete_loop_only_removes (dir : list string) (selected : list string) :
  ∀ vars,
    v_fs (delete_loop dir selected vars) ⊆ v_fs vars
    ∧ ∀ p st msg, v_fs vars !! p = Some (Folder st msg) →
                  v_fs (delete_loop dir selected vars) !! p = Some (Folder st msg).
Proof.
  unfold delete_loop.
  induction selected as [|f rest IH]; intros vars; simpl; [done|].
  destruct (IH (delete_one dir vars f)) as [Hsub Hfold].
  destruct (delete_one_fs dir vars f) as [Heq|(q & Heq & Hq)].
  - rewrite Heq in Hsub, Hfold. done.
  - rewrite Heq in Hsub, Hfold. split.
    + etrans; [exact Hsub|]. apply delete_subseteq.
    + intros p st msg Hp. apply Hfold. rewrite lookup_delete_ne; [done|].
      intros ->. destruct Hq as [[st' Hq]|Hq]; congruence.
Qed.

(** The executor only removes: every entry of the file system it leaves
    was there before, unchanged, and every directory that was there is
    still there. *)
Theorem delete_selected_files_only_removes
    (selected : list string) (dir : list string) (fs0 : filesystem) :
  snd (delete_selected_files selected dir fs0) ⊆ fs0
  ∧ ∀ p st msg, fs0 !! p = Some (Folder st msg) →
                snd (delete_selected_files selected dir fs0) !! p
                = Some (Folder st msg).
Proof.
  unfold delete_selected_files. simpl.
  apply (delete_loop_only_removes dir selected
           {| v_deleted := []; v_failed := []; v_total_freed_mb := 0; v_fs := fs0 |}).
Qed.

(** A selected filename that names a directory is reported as a failure
    with the message of the error that [unlink] raises on it, and nothing
    is removed. *)
Theorem delete_selected_files_on_directory
    (filename : string) (dir q : list string) (fs0 : filesystem)
    (st : stat_result) (msg : string) :
  resolve fs0 (joinpath dir filename) = Some q →
  fs0 !! q = Some (Folder st msg) →
  delete_selected_files [filename] dir fs0
  = ({| deleted := []; failed := [error_entry filename (OSError msg)];
        total_freed_mb := 0; count := 0 |}, fs0).
Proof.
  intros Hres Hq. unfold delete_selected_files, delete_loop. simpl.
  unfold delete_one, path_exists, stat, unlink. simpl. rewrite Hres, Hq.
  by destruct q.
Qed.

Lemma delete_selected_files_on_directory_witness :
  resolve example_fs (joinpath home_dir "Downloads") = Some downloads_dir
  ∧ example_fs !! downloads_dir = Some a_folder
  ∧ failed (fst (delete_selected_files ["Downloads"%string] home_dir example_fs))
    = ["Downloads (error: [Errno 1] Operation not permitted)"%string].
Proof.
  assert (Hr : resolve example_fs (joinpath home_dir "Downloads") = Some downloads_dir)
    by (vm_compute; reflexivity).
  assert (Hq : example_fs !! downloads_dir = Some a_folder)
    by (vm_compute; reflexivity).
  split; [exact Hr|]. split; [exact Hq|].
  exact (f_equal (λ r, failed (fst r))
           (delete_selected_files_on_directory "Downloads" home_dir downloads_dir
              example_fs (a_stat 96) "[Errno 1] Operation not permitted" Hr Hq)).
Defined.

Lemma is_directory_delete (current : filesystem) (q p : list string) :
  not_a_directory current q →
  is_directory (delete q current) p = is_directory current p.
Proof.
  intros Hq. unfold is_directory. destruct p as [|c p]; [done|].
  destruct (decide (q = c :: p)) as [->|Hne].
  - rewrite lookup_delete_eq. destruct Hq as [[st ->]| ->]; done.
  - by rewrite lookup_delete_ne.
Qed.

Lemma walk_delete (current : filesystem) (q : list string) (comps : list string) :
  not_a_directory current q →
  ∀ cur, walk (delete q current) cur comps = walk current cur comps.
Proof.
  intros Hq. induction comps as [|c comps IH]; intros cur; simpl; [done|].
  rewrite (is_directory_delete _ _ _ Hq).
  destruct (is_directory current cur); [apply IH|done].
Qed.

Lemma path_exists_delete (current : filesystem) (q p : list string) :
  not_a_directory current q →
  path_exists current p = false →
  path_exists (delete q current) p = false.
Proof.
  intros Hq. unfold path_exists, stat, resolve.
  rewrite (walk_delete _ _ _ Hq).
  destruct (walk current [] p) as [[|c q']|]; [done| |done].
  destruct (decide (q = c :: q')) as [->|Hne].
  - by rewrite lookup_delete_eq.
  - by rewrite lookup_delete_ne.
Qed.

Lemma path_exists_after_unlink (current fs' : filesystem) (p : list string) :
  current !! [] = None →
  unlink current p = Ok fs' →
  path_exists fs' p = false
  ∧ fs' !! [] = None
  ∧ ∃ q, fs' = delete q current ∧ not_a_directory current q.
Proof.
  intros Hroot Hu.
  assert (Hq : ∃ q, resolve current p = Some q ∧ fs' = delete q current
                    ∧ not_a_directory current q).
  { unfold unlink in Hu. destruct (resolve current p) as [q|]; [|done].
    exists q. split; [done|].
    destruct (current !! q) as [[st [msg|]|st msg|]|] eqn:Hq; try done;
      injection Hu as <-; (split; [done|]).
    - left. by exists st.
    - by right. }
  destruct Hq as (q & Hres & -> & Hnd).
  assert (Hne : q ≠ []) by (intros ->; destruct Hnd as [[st H]|H]; congruence).
  split_and!.
  - unfold path_exists, stat, resolve. rewrite (walk_delete _ _ _ Hnd).
    unfold resolve in Hres. rewrite Hres. destruct q; [done|].
    by rewrite lookup_delete_eq.
  - by rewrite lookup_delete_ne.
  - by exists q.
Qed.

Lemma delete_loop_gone (dir : list string) (selected : list string) :
  ∀ vars,
    v_fs vars !! [] = None →
    (∀ f, f ∈ v_deleted vars → path_exists (v_fs vars) (joinpath dir f) = false) →
    ∀ f, f ∈ v_deleted (delete_loop dir selected vars) →
         path_exists (v_fs (delete_loop dir selected vars)) (joinpath dir f) = false.
Proof.
  unfold delete_loop.
  induction selected as [|g rest IH]; intros vars Hroot Hgone; simpl; [done|].
  apply IH.
  - unfold delete_one. destruct (path_exists _ _); [|done].
    destruct (stat _ _); [|done].
    destruct (unlink _ _) as [fs'|e] eqn:Hu; [|done]. simpl.
    by apply (path_exists_after_unlink _ _ _ Hroot) in Hu as (_ & ? & _).
  - intros f. unfold delete_one.
    destruct (path_exists (v_fs vars) (joinpath dir g)); [|by apply Hgone].
    destruct (stat _ _); [|by apply Hgone].
    destruct (unlink _ _) as [fs'|e] eqn:Hu; [|by apply Hgone]. simpl.
    apply (path_exists_after_unlink _ _ _ Hroot) in Hu
      as (Hg & _ & q & -> & Hnd).
    intros [Hf|Hf]%elem_of_app.
    + apply path_exists_delete; [done|]. by apply Hgone.
    + apply list_elem_of_singleton in Hf as ->. done.
Qed.

(** When the executor returns, the path of none of the filenames it
    reports as deleted exists (the root itself being no entry of the file
    system). *)
Theorem delete_selected_files_deleted_gone
    (selected : list string) (dir : list string) (fs0 : filesystem) (f : string) :
  fs0 !! [] = None →
  f ∈ deleted (fst (delete_selected_files selected dir fs0)) →
  path_exists (snd (delete_selected_files selected dir fs0)) (joinpath dir f) = false.
Proof.
  intros Hroot Hf. unfold delete_selected_files in *. simpl in *.
  apply (delete_loop_gone dir selected
           {| v_deleted := []; v_failed := []; v_total_freed_mb := 0; v_fs := fs0 |});
    try done.
  simpl. intros g Hg. by apply elem_of_nil in Hg.
Qed.

Lemma delete_selected_files_deleted_gone_witness :
  example_fs !! [] = None
  ∧ "a.dmg"%string
    ∈ deleted (fst (delete_selected_files ["a.dmg"; "b.tmp"]%string downloads_dir
                      example_fs))
  ∧ path_exists (snd (delete_selected_files ["a.dmg"; "b.tmp"]%string downloads_dir
                        example_fs))
                (joinpath downloads_dir "a.dmg") = false.
Proof.
  assert (Hroot : example_fs !! [] = None) by (vm_compute; reflexivity).
  assert (Hin : "a.dmg"%string
                ∈ deleted (fst (delete_selected_files ["a.dmg"; "b.tmp"]%string
                                  downloads_dir example_fs))).
  { replace (deleted (fst (delete_selected_files ["a.dmg"; "b.tmp"]%string
                             downloads_dir example_fs)))
      with ["a.dmg"%string] by (vm_compute; reflexivity).
    apply list_elem_of_here. }
  split; [exact Hroot|]. split; [exact Hin|].
  exact (delete_selected_files_deleted_gone _ _ _ _ Hroot Hin).
Defined.

(** ** Stability of the order of the prompt *)

Lemma string_compare_refl (s : string) : String.compare s s = Eq.
Proof.
  induction s as [|c s IH]; [done|]. simpl.
  replace (Ascii.compare c c) with Eq; [done|].
  symmetry. unfold Ascii.compare. apply N.compare_refl.
Qed.

Lemma key_lt_irrefl (a b : Z * string) : key_lt a b = true → a ≠ b.
Proof.
  intros Hlt ->. unfold key_lt in Hlt.
  rewrite Z.ltb_irrefl, Z.eqb_refl in Hlt. simpl in Hlt.
  unfold String.ltb in Hlt. by rewrite string_compare_refl in Hlt.
Qed.

Lemma sorted_insert_same_key (k : Z * string) (x : file_info) (l : list file_info) :
  filter (λ y, sort_key y = k) (sorted_insert x l)
  = filter (λ y, sort_key y = k) (x :: l).
Proof.
  induction l as [|y l IH]; [done|]. simpl.
  destruct (key_lt (sort_key y) (sort_key x)) eqn:Hlt; [|done].
  apply key_lt_irrefl in Hlt.
  rewrite (filter_cons _ y), IH, !(filter_cons _ x), (filter_cons _ y).
  destruct (decide (sort_key x = k)) as [Hx|Hx]; [|done].
  destruct (decide (sort_key y = k)) as [Hy|Hy]; [|done].
  congruence.
Qed.

(** The sort is stable, and nothing is lost or added: the records of one
    size and one modification date come in the order in which they were
    given, and there is one line per record. *)
Theorem format_files_for_prompt_stable (files : list file_info) (k : Z * string) :
  filter (λ y, sort_key y = k) (sorted_files files)
  = filter (λ y, sort_key y = k) files
  ∧ length (formatted_lines files) = length files.
Proof.
  split.
  - induction files as [|x files IH]; [done|]. simpl.
    rewrite sorted_insert_same_key, !(filter_cons _ x), IH. done.
  - unfold formatted_lines. rewrite length_map.
    apply Permutation_length, sorted_files_perm.
Qed.

(** ** The scan *)

Lemma stat_raises_io (current : filesystem) (p : list string) (e : exn) :
  stat current p = Raise e → is_io_error e = true.
Proof.
  unfold stat. destruct (resolve current p) as [[|c q]|]; [done| |by intros [= <-]].
  destruct (current !! (c :: q)) as [[| |]|]; try done; by intros [= <-].
Qed.

Lemma scan_item_eval (dir : list string) (n : string) (s : state) :
  ∃ found s',
    scan_item dir n s = (Ok found, s')
    ∧ untouched s s'
    ∧ map name found = filter (λ m, path_exists (fs s) (dir ++ [m]) = true) [n]
    ∧ Forall (record_of (fs s) dir) found.
Proof.
  unfold scan_item, try_except, bind, get_fs, lift, ret, print, emit, path_exists.
  rewrite filter_cons, filter_nil.
  destruct (stat (fs s) (dir ++ [n])) as [st|e] eqn:Hst; simpl.
  - eexists _, _. split; [done|]. split; [done|]. split; [done|].
    constructor; [|done]. unfold record_of. simpl. rewrite Hst. by destruct st.
  - rewrite (stat_raises_io _ _ _ Hst). simpl.
    eexists _, _. split; [done|]. split; [done|]. split; [done|]. done.
Qed.

Lemma scan_items_eval (dir : list string) (names : list string) :
  ∀ s, ∃ files s',
    scan_items dir names s = (Ok files, s')
    ∧ untouched s s'
    ∧ map name files = filter (λ m, path_exists (fs s) (dir ++ [m]) = true) names
    ∧ Forall (record_of (fs s) dir) files.
Proof.
  induction names as [|n names IH]; intros s; simpl.
  - exists [], s. by split_and!.
  - destruct (scan_item_eval dir n s) as (found & s1 & H1 & [Hf1 Hd1] & Hn1 & Hr1).
    destruct (IH s1) as (others & s2 & H2 & [Hf2 Hd2] & Hn2 & Hr2).
    exists (found ++ others), s2.
    rewrite (bind_ok _ _ _ _ _ H1), (bind_ok _ _ _ _ _ H2). rewrite Hf1 in Hn2, Hr2.
    split; [done|]. split; [split; congruence|]. split.
    + rewrite map_app, Hn1, Hn2.
      by rewrite (filter_cons _ n names), !filter_cons, filter_nil;
        destruct (decide _).
    + by apply Forall_app.
Qed.

(** The scan gives one record for each entry of the directory that
    [stat] can reach, in the order of the listing, with the name, size,
    date and kind of the entry; the other entries are skipped (with a
    warning), and the scan changes neither the file system nor the
    store. *)
Theorem scan_downloads_folder_records
    (dir : list string) (s : state) (names : list string) :
  iterdir (fs s) dir = Ok names →
  ∃ files,
    fst (scan_downloads_folder dir s) = Ok files
    ∧ map name files = filter (λ m, path_exists (fs s) (dir ++ [m]) = true) names
    ∧ Forall (record_of (fs s) dir) files
    ∧ untouched s (snd (scan_downloads_folder dir s)).
Proof.
  intros Hit. unfold scan_downloads_folder, bind, get_fs, lift. simpl.
  rewrite Hit.
  destruct (scan_items_eval dir names s) as (files & s' & -> & Hu & Hn & Hr).
  exists files. by split_and!.
Qed.

Lemma scan_downloads_folder_records_witness :
  (∃ names, iterdir (fs example_state) downloads_dir = Ok names)
  ∧ ∃ files, fst (scan_downloads_folder downloads_dir example_state) = Ok files
             ∧ Forall (record_of (fs example_state) downloads_dir) files.
Proof.
  assert (Hit : iterdir (fs example_state) downloads_dir
                = Ok (omap (λ kv, child_name downloads_dir (fst kv))
                           (map_to_list (fs example_state))))
    by (vm_compute; reflexivity).
  split; [by eexists|].
  destruct (scan_downloads_folder_records _ _ _ Hit) as (files & Hf & _ & Hr & _).
  exists files. split; [exact Hf|exact Hr].
Defined.

(** ** The choices of the checkbox prompts *)

Lemma make_choice_value (item : json) (c : choice) :
  make_choice item = Ok c →
  Py.getitem item "filename" = Ok (value c)
  ∧ head (title c) = Some (Lit (group_marker item))
  ∧ title c !! 2%nat = Some (fmt_value (value c)).
Proof.
  unfold make_choice, group_marker, in_group, has_confidence.
  destruct (Py.get item "confidence" (JStr EmptyString)) as [cf|]; [|done].
  destruct (Py.lower cf) as [level|]; [|done].
  destruct (Py.get item "reason" (JStr "N/A")) as [r0|]; [|done].
  destruct (truncate_reason r0) as [r|]; [|done].
  destruct (Py.getitem item "filename") as [fn|]; [|done].
  destruct (Py.get item "size_mb" (JNum 0)) as [sz|]; [|done].
  destruct (fmt_2f sz) as [p|]; [|done].
  intros [= <-]. simpl. split; [done|]. split; [|done].
  unfold confidence_emoji.
  destruct (String.eqb level "high"); [done|].
  destruct (String.eqb level "medium"); [done|].
  by destruct (String.eqb level "low").
Qed.

Lemma map_result_Forall2 {A B : Type} (f : A → result B) (l : list A) (k : list B) :
  map_result f l = Ok k → Forall2 (λ x y, f x = Ok y) l k.
Proof.
  revert k. induction l as [|x l IH]; intros k; simpl.
  - intros [= <-]. constructor.
  - destruct (f x) as [y|] eqn:Hx; [|done].
    destruct (map_result f l) as [ys|]; [|done].
    intros [= <-]. constructor; [done|]. by apply IH.
Qed.

(** When the batch has suggestions and choices can be made of them, the
    delete prompt and the keep prompt are each shown once, over the same
    choices, and return what the operator selects (nothing when the
    prompt is cancelled); there is one choice per suggestion, in the
    order of the batch, whose value is the filename of the suggestion,
    whose title shows that filename and opens with the marker of the
    group in which the display puts the suggestion, the default marker
    when the display puts it in none: no suggestion is left out of a
    prompt, whatever its confidence. *)
Theorem checkbox_choices_cover
    (w : world) (suggestions : json) (items : list json) (choices : list choice)
    (s : state) :
  Py.get suggestions "suggestions" (JArr []) = Ok (JArr items) →
  items ≠ [] →
  map_result make_choice items = Ok choices →
  interactive_file_selection w suggestions s
  = (Ok (default [] (answer_delete w choices)),
     {| fs := fs s; kept_db := kept_db s;
        trace := trace s ++ [Asked_checkbox
                   "Select files to delete (use space to toggle, enter to confirm):"
                   choices];
        ticks := ticks s |})
  ∧ mark_files_as_keep w suggestions s
    = (Ok (default [] (answer_keep w choices)),
       {| fs := fs s; kept_db := kept_db s;
          trace := trace s ++ [Asked_checkbox
                     "Mark files as 'keep' (they won't be suggested again):"
                     choices];
          ticks := ticks s |})
  ∧ Forall2 (λ item c, Py.getitem item "filename" = Ok (value c)
                       ∧ head (title c) = Some (Lit (group_marker item))
                       ∧ title c !! 2%nat = Some (fmt_value (value c)))
            items choices
  ∧ length choices = length items.
Proof.
  intros Hg Hne Hm.
  split; [by apply checkbox_over_eval with (items := items)|].
  split; [by apply checkbox_over_eval with (items := items)|].
  apply map_result_Forall2 in Hm.
  split.
  - eapply Forall2_impl; [exact Hm|]. intros item c. apply make_choice_value.
  - symmetry. by eapply Forall2_length.
Qed.

Lemma checkbox_choices_cover_witness :
  Py.get example_batch "suggestions" (JArr []) = Ok (JArr example_items)
  ∧ example_items ≠ []
  ∧ (∃ choices,
       map_result make_choice example_items = Ok choices
       ∧ map (λ c, head (title c)) choices
         = [Some (Lit "🔴"); Some (Lit "⚪"); Some (Lit "⚪")]
       ∧ Forall2 (λ item c, Py.getitem item "filename" = Ok (value c)
                            ∧ head (title c) = Some (Lit (group_marker item))
                            ∧ title c !! 2%nat = Some (fmt_value (value c)))
                 example_items choices).
Proof.
  assert (Hg : Py.get example_batch "suggestions" (JArr []) = Ok (JArr example_items))
    by reflexivity.
  assert (Hne : example_items ≠ []) by discriminate.
  split; [exact Hg|]. split; [exact Hne|].
  destruct (map_result make_choice example_items) as [choices|] eqn:Hm.
  - exists choices. split; [done|]. split.
    + vm_compute in Hm. injection Hm as <-. reflexivity.
    + exact (proj1 (proj2 (proj2 (checkbox_choices_cover
               (example_world None example_reply) example_batch example_items choices
               example_state Hg Hne Hm)))).
  - vm_compute in Hm. discriminate Hm.
Defined.

Lemma str_len_take (n : nat) (s : string) :
  Py.str_len (Py.str_take n s) = Nat.min n (Py.str_len s).
Proof.
  revert n. induction s as [|c s IH]; intros n; simpl; [lia|].
  destruct (Py.is_continuation c) eqn:Hc; simpl.
  - rewrite Hc. apply IH.
  - destruct n as [|n]; simpl; [lia|]. rewrite Hc. specialize (IH n). lia.
Qed.

Lemma str_len_append (a b : string) :
  Py.str_len (String.append a b) = (Py.str_len a + Py.str_len b)%nat.
Proof.
  induction a as [|c a IH]; simpl; [done|].
  destruct (Py.is_continuation c); simpl; lia.
Qed.

(** The reason shown in a choice has at most 60 characters: a reason of
    at most 60 characters is shown as it is, a longer one is cut to its
    first 57 characters followed by "...", 60 characters in all. *)
Theorem truncate_reason_bound (s : string) :
  ∃ t, truncate_reason (JStr s) = Ok (JStr t)
       ∧ Py.str_len t = Nat.min 60 (Py.str_len s)
       ∧ t = (if (60 <? Py.str_len s)%nat
              then String.append (Py.str_take 57 s) "..." else s).
Proof.
  remember (Nat.min 60 (Py.str_len s)) as m eqn:Hm.
  unfold truncate_reason. simpl.
  destruct (60 <? Py.str_len s)%nat eqn:Hlen.
  - eexists. split; [done|]. split; [|done].
    apply Nat.ltb_lt in Hlen.
    rewrite str_len_append, str_len_take.
    change (Py.str_len "...") with 3%nat. lia.
  - exists s. split; [done|]. split; [|done]. apply Nat.ltb_ge in Hlen. lia.
Qed.

(** ** Sessions that end early *)

(** Without a Downloads folder in the home directory, a session raises
    [FileNotFoundError] right after its first line; with a Downloads
    folder that has no entries, it prints that no files were found and
    returns.  In both cases no request is sent, no prompt is shown, and
    the file system and the store stay as they are. *)
Theorem session_without_files (w : world) (s : state) :
  path_exists (fs s) (joinpath (home w) "Downloads") = false
  ∨ (path_exists (fs s) (joinpath (home w) "Downloads") = true
     ∧ iterdir (fs s) (joinpath (home w) "Downloads") = Ok []) →
  let r := run_cleanup_session w s in
  fst r = (if path_exists (fs s) (joinpath (home w) "Downloads")
           then Ok tt else Raise FileNotFoundError)
  ∧ trace (snd r)
    = trace s ++ Printed [Lit "🔍 Scanning Downloads folder..."]
        :: (if path_exists (fs s) (joinpath (home w) "Downloads")
            then [Printed [Lit "No files found in Downloads folder."]] else [])
  ∧ untouched s (snd r).
Proof.
  intros H. cbv zeta.
  unfold run_cleanup_session, get_downloads_folder, scan_downloads_folder.
  unfold bind, print, emit, get_fs, lift, raise, ret, untouched. simpl.
  destruct H as [-> | [-> Hit]]; simpl.
  - done.
  - rewrite Hit. simpl. split; [done|]. split; [|done].
    by rewrite <- app_assoc.
Qed.

Lemma session_without_files_witness :
  let w := example_world None example_reply in
  let s := {| fs := base_fs; kept_db := kept_db example_state;
              trace := []; ticks := 0 |} in
  (path_exists (fs s) (joinpath (home w) "Downloads") = false
   ∨ (path_exists (fs s) (joinpath (home w) "Downloads") = true
      ∧ iterdir (fs s) (joinpath (home w) "Downloads") = Ok []))
  ∧ untouched s (snd (run_cleanup_session w s)).
Proof.
  cbv zeta.
  match goal with
  | |- ?H ∧ _ => assert (Hh : H) by (right; split; vm_compute; reflexivity)
  end.
  split; [exact Hh|].
  exact (proj2 (proj2 (session_without_files _ _ Hh))).
Defined.

(** When the call to the oracle raises, the client prints the error and
    raises it again: one request, no retry; whatever follows the call is
    not run, and a session in which this happens leaves the file system
    and the store as they were. *)
Theorem get_deletion_suggestions_api_failure
    (w : world) (files : list file_info) (s : state) (msg : string) :
  reply w = Api_raises msg →
  let r := get_deletion_suggestions w files s in
  fst r = Raise (APIError msg)
  ∧ trace (snd r)
    = trace s ++ [Sent_request (user_prompt files);
                  Printed [Lit "Error calling OpenAI API: "; Lit msg]]
  ∧ untouched s (snd (run_cleanup_session w s)).
Proof.
  intros Hw. cbv zeta.
  assert (Hr : ∀ fl s0, get_deletion_suggestions w fl s0
    = (Raise (APIError msg),
       {| fs := fs s0; kept_db := kept_db s0;
          trace := trace s0 ++ [Sent_request (user_prompt fl);
                     Printed [Lit "Error calling OpenAI API: "; Lit msg]];
          ticks := ticks s0 |})).
  { intros fl s0. unfold get_deletion_suggestions. rewrite Hw.
    unfold bind, emit, print, emit, raise. simpl. by rewrite <- !app_assoc. }
  rewrite Hr. simpl. split; [done|]. split; [done|].
  revert s. change (respects untouched (run_cleanup_session w)).
  pose proof untouched_frame as HF. unfold run_cleanup_session.
  apply (respects_bind _ HF); [by apply respects_print|]. intros _.
  apply (respects_bind _ HF); [by apply respects_get_downloads_folder|].
  intros dir.
  apply (respects_bind _ HF); [by apply respects_scan_downloads_folder|].
  intros fl. destruct fl as [|f fl]; [by apply respects_print|].
  repeat (apply (respects_bind _ HF); [by apply respects_print|]; intros _).
  apply (respects_bind _ HF); [by apply respects_load_kept_files|].
  intros kept.
  apply (respects_bind _ HF).
  { destruct kept.
    - apply (respects_bind _ HF); [by apply respects_print|]. intros _.
      by apply respects_ret.
    - repeat (apply (respects_bind _ HF); [by apply respects_print|]; intros _).
      by apply respects_ret. }
  intros remaining.
  apply (respects_bind _ HF); [by apply respects_print|]. intros _.
  apply respects_bind_raises; [by apply respects_get_deletion_suggestions|].
  intros s0. rewrite Hr. by eexists.
Qed.

Lemma get_deletion_suggestions_api_failure_witness :
  reply (example_world None (Api_raises "Connection error.")) = Api_raises "Connection error."
  ∧ fst (get_deletion_suggestions (example_world None (Api_raises "Connection error."))
           [] example_state)
    = Raise (APIError "Connection error.").
Proof.
  split; [reflexivity|].
  exact (proj1 (get_deletion_suggestions_api_failure
                  (example_world None (Api_raises "Connection error."))
                  [] example_state "Connection error." eq_refl)).
Defined.

(** ** The groups of the display *)

Lemma filter_result_none (level : string) (items : list json) :
  Forall (λ item, has_confidence level item = Ok false) items →
  filter_result (has_confidence level) items = Ok [].
Proof.
  induction 1 as [|item items Hi _ IH]; simpl; [done|]. by rewrite Hi, IH.
Qed.

(** [display_suggestions] prints the suggestions of high, medium and low
    confidence only: for a batch all of whose suggestions have another
    confidence (or none), it prints the number of suggestions between its
    opening and closing lines, and not one of the suggestions. *)
Theorem display_suggestions_prints_no_other_confidence
    (items : list json) (s : state) :
  items ≠ [] →
  Forall in_no_group items →
  display_suggestions (JObj [("suggestions"%string, JArr items)]) s
  = (Ok tt, {| fs := fs s; kept_db := kept_db s;
               trace := trace s ++ display_frame (length items);
               ticks := ticks s |}).
Proof.
  intros Hne Hall.
  assert (Ht : Py.truthy (JArr items) = true) by (by destruct items).
  assert (Hh : filter_result (has_confidence "high") items = Ok []).
  { apply filter_result_none. eapply Forall_impl; [exact Hall|]. by intros ? (? & ? & ?). }
  assert (Hm : filter_result (has_confidence "medium") items = Ok []).
  { apply filter_result_none. eapply Forall_impl; [exact Hall|]. by intros ? (? & ? & ?). }
  assert (Hl : filter_result (has_confidence "low") items = Ok []).
  { apply filter_result_none. eapply Forall_impl; [exact Hall|]. by intros ? (? & ? & ?). }
  unfold display_suggestions, bind, print, emit, lift. simpl.
  destruct items as [|item items]; [done|].
  rewrite Hh, Hm, Hl. simpl. unfold display_frame, ret. simpl.
  repeat rewrite <- app_assoc. done.
Qed.

Lemma display_suggestions_prints_no_other_confidence_witness :
  let items := [suggestion "c.zip" "Looks like a duplicate"
                  [("confidence"%string, JStr "unknown")];
                suggestion "b.tmp" "Temporary file" []] in
  items ≠ []
  ∧ Forall in_no_group items
  ∧ trace (snd (display_suggestions (JObj [("suggestions"%string, JArr items)])
                  example_state))
    = display_frame 2.
Proof.
  cbv zeta.
  match goal with
  | |- ?A ∧ ?B ∧ _ =>
      assert (Hne : A) by discriminate;
      assert (Hall : B) by (repeat constructor)
  end.
  split; [exact Hne|]. split; [exact Hall|].
  exact (f_equal (λ r, trace (snd r))
           (display_suggestions_prints_no_other_confidence _ example_state Hne Hall)).
Defined.

(** ** Sessions in which nothing is selected for deletion *)

Lemma respects_deletion_step_unselected (R : state → state → Prop) (HR : frame R)
    (w : world) (suggestions : json) (dir : list string) :
  (∀ choices, default [] (answer_delete w choices) = []) →
  respects R (deletion_step w suggestions dir).
Proof.
  intros Hk s. unfold deletion_step, bind.
  pose proof (respects_checkbox_over R HR delete_message (answer_delete w)
                suggestions s) as Hs.
  change (checkbox_over delete_message (answer_delete w) suggestions)
    with (interactive_file_selection w suggestions) in Hs.
  assert (Hl : ∀ l, fst (interactive_file_selection w suggestions s) = Ok l → l = []).
  { unfold interactive_file_selection, checkbox_over, bind, lift, emit, ret.
    destruct (Py.get suggestions "suggestions" (JArr [])) as [v|]; [|done].
    destruct (negb (Py.truthy v)); [by intros l [= <-]|].
    destruct (Py.iter v) as [items|]; [|done].
    destruct (map_result make_choice items) as [choices|]; [|done].
    simpl. intros l [= <-]. apply Hk. }
  destruct (interactive_file_selection w suggestions s) as [[l|e] s1];
    simpl in *; [|done].
  rewrite (Hl l eq_refl).
  eapply (frame_trans R HR); [exact Hs|].
  apply (respects_print R HR). discriminate.
Qed.

(** When the operator selects nothing at the delete prompt (or cancels
    it), the session removes no entry of the file system and reports no
    outcome of the deletion executor, whatever the answer to a
    confirmation would be. *)
Theorem session_without_selection (w : world) (s : state) :
  (∀ choices, default [] (answer_delete w choices) = []) →
  let s' := snd (run_cleanup_session w s) in
  (∀ p, is_Some (fs s !! p) → is_Some (fs s' !! p))
  ∧ (results_header ∈ trace s' → results_header ∈ trace s).
Proof.
  intros Hk. revert s.
  change (respects nothing_deleted (run_cleanup_session w)).
  pose proof nothing_deleted_frame as HF.
  pose proof nothing_deleted_store as HS.
  unfold run_cleanup_session.
  apply (respects_bind _ HF); [by apply respects_print|]. intros _.
  apply (respects_bind _ HF); [by apply respects_get_downloads_folder|].
  intros dir.
  apply (respects_bind _ HF); [by apply respects_scan_downloads_folder|].
  intros files. destruct files as [|f files]; [by apply respects_print|].
  repeat (apply (respects_bind _ HF); [by apply respects_print|]; intros _).
  apply (respects_bind _ HF); [by apply respects_load_kept_files|].
  intros kept.
  apply (respects_bind _ HF).
  { destruct kept.
    - apply (respects_bind _ HF); [by apply respects_print|]. intros _.
      by apply respects_ret.
    - repeat (apply (respects_bind _ HF); [by apply respects_print|]; intros _).
      by apply respects_ret. }
  intros remaining.
  apply (respects_bind _ HF); [by apply respects_print|]. intros _.
  apply (respects_bind _ HF); [by apply respects_get_deletion_suggestions|].
  intros suggestions.
  apply (respects_bind _ HF); [by apply respects_display_suggestions|]. intros _.
  apply (respects_bind _ HF); [apply nothing_deleted_write_suggestions|]. intros _.
  apply (respects_bind _ HF); [by apply respects_print|]. intros _.
  unfold interactive_part.
  apply (respects_bind _ HF); [by apply respects_lift|]. intros v.
  destruct (Py.truthy v); [|by apply respects_ret].
  apply (respects_bind _ HF); [by apply respects_print|]. intros _.
  apply (respects_bind _ HF); [by apply respects_deletion_step_unselected|].
  intros _. by apply respects_keep_step.
Qed.

Lemma session_without_selection_witness :
  (∀ choices, default [] (answer_delete unselecting_world choices) = [])
  ∧ is_Some (fs (snd (run_cleanup_session unselecting_world example_state))
               !! (downloads_dir ++ ["a.dmg"%string])).
Proof.
  assert (Hk : ∀ choices, default [] (answer_delete unselecting_world choices) = [])
    by (intros choices; reflexivity).
  split; [exact Hk|].
  apply (proj1 (session_without_selection _ example_state Hk)).
  vm_compute. eexists. reflexivity.
Defined.

(** ** Filenames that stay inside the directory *)

Lemma split_slash_plain (s : string) : no_slash s → split_slash s = [s].
Proof.
  unfold no_slash. induction s as [|c s IH]; simpl; [done|].
  intros [Hc Hs]%Forall_cons. rewrite (IH Hs).
  destruct (Ascii.eqb c "/") eqn:He; [|done].
  by apply Ascii.eqb_eq in He.
Qed.

Lemma walk_app (current : filesystem) (comps1 comps2 : list string) :
  ∀ cur, walk current cur (comps1 ++ comps2)
         = match walk current cur comps1 with
           | Some mid => walk current mid comps2
           | None => None
           end.
Proof.
  induction comps1 as [|c comps1 IH]; intros cur; simpl; [done|].
  destruct (is_directory current cur); [apply IH|done].
Qed.

(** A filename without a slash, other than the empty one, "." and "..",
    names an entry directly in the scanned directory: the path of its
    attempt is the directory followed by the filename. *)
Theorem plain_filename_stays_inside
    (dir dir' : list string) (fs0 : filesystem) (f : string) :
  no_slash f → f ≠ EmptyString → f ≠ "."%string → f ≠ ".."%string →
  resolve fs0 dir = Some dir' →
  is_directory fs0 dir' = true →
  joinpath dir f = dir ++ [f]
  ∧ resolve fs0 (joinpath dir f) = Some (dir' ++ [f])
  ∧ dir' `prefix_of` dir' ++ [f].
Proof.
  intros Hns He Hd Hdd Hres Hdir.
  assert (Hj : joinpath dir f = dir ++ [f]).
  { unfold joinpath, path_parts. rewrite (split_slash_plain f Hns).
    rewrite filter_cons, filter_nil, decide_True by done.
    destruct f as [|c f]; [done|]. simpl.
    destruct (Ascii.eqb c "/") eqn:Hc; [|done].
    apply Ascii.eqb_eq in Hc. subst c.
    unfold no_slash in Hns. simpl in Hns. by apply Forall_cons in Hns as [? _]. }
  split; [done|]. split; [|by eexists].
  rewrite Hj. unfold resolve in *. rewrite walk_app, Hres. simpl. rewrite Hdir.
  destruct (String.eqb f "..") eqn:Hf; [|done].
  by apply String.eqb_eq in Hf.
Qed.

Lemma plain_filename_stays_inside_witness :
  no_slash "a.dmg"
  ∧ resolve example_fs downloads_dir = Some downloads_dir
  ∧ is_directory example_fs downloads_dir = true
  ∧ resolve example_fs (joinpath downloads_dir "a.dmg")
    = Some (downloads_dir ++ ["a.dmg"%string]).
Proof.
  assert (Hns : no_slash "a.dmg") by (repeat constructor; discriminate).
  assert (Hres : resolve example_fs downloads_dir = Some downloads_dir)
    by (vm_compute; reflexivity).
  assert (Hdir : is_directory example_fs downloads_dir = true)
    by (vm_compute; reflexivity).
  split; [exact Hns|]. split; [exact Hres|]. split; [exact Hdir|].
  refine (proj1 (proj2 (plain_filename_stays_inside downloads_dir downloads_dir
                          example_fs "a.dmg" Hns _ _ _ Hres Hdir))); discriminate.
Defined.
